(** * EMS front end: leave list and report export

    A shallow embedding of the two components of the administrative console
    whose behaviour the specification describes:

    - [src/components/leave/LeaveList.jsx]: fetching the leave collection,
      the data-integrity warning, the search filter and the orphan cleanup;
    - [src/components/reports/Reports.jsx]: report generation, the CSV
      generators and the mapping of failures to messages.

    The JavaScript run time the components rely on (string operations,
    IEEE doubles, [Number.prototype.toFixed], template literals, completion
    of [try]/[catch]/[finally] blocks) is modelled first, then each component
    as state-passing code over its React state. *)

From Stdlib Require Import ZArith List String Ascii Bool Lia.
From Stdlib Require Import Floats.SpecFloat.
From Stdlib Require Import Numbers.DecimalString Numbers.DecimalPos.
Import ListNotations.

#[local] Open Scope string_scope.
#[local] Open Scope Z_scope.

(* ===================================================================== *)
(** ** JavaScript strings *)
(* ===================================================================== *)

(** Strings are sequences of code units; the embedding covers the code units
    below 256 (Latin-1), one [ascii] each. *)
Module JsString.

(** [a.join(sep)] on an array of strings. *)
Definition join (sep : string) (parts : list string) : string :=
  String.concat sep parts.

(** [s.startsWith(p)]. *)
Fixpoint startsWith (s p : string) {struct p} : bool :=
  match p, s with
  | EmptyString, _ => true
  | String _ _, EmptyString => false
  | String a p', String b s' => Ascii.eqb a b && startsWith s' p'
  end.

(** [s.includes(sub)]: [sub] occurs in [s] at some position. *)
Fixpoint includes (s sub : string) : bool :=
  startsWith s sub ||
  match s with
  | EmptyString => false
  | String _ s' => includes s' sub
  end.

(** Lower-case mapping of one code unit: the letters A-Z, and in the
    Latin-1 supplement the letters U+00C0..U+00DE except the
    multiplication sign U+00D7, move 32 places up. *)
Definition lowerChar (c : ascii) : ascii :=
  let n := N_of_ascii c in
  if ((65 <=? n) && (n <=? 90))%N
     || ((192 <=? n) && (n <=? 222) && negb (n =? 215))%N
  then ascii_of_N (n + 32)
  else c.

(** [s.toLowerCase()]. *)
Fixpoint toLowerCase (s : string) : string :=
  match s with
  | EmptyString => EmptyString
  | String c s' => String (lowerChar c) (toLowerCase s')
  end.

(** Truthiness of a string: the empty string is falsy. *)
Definition truthy (s : string) : bool :=
  match s with
  | EmptyString => false
  | String _ _ => true
  end.

(** [s.slice(0, n)] and [s.slice(n)] for [0 <= n]. *)
Fixpoint take (n : nat) (s : string) : string :=
  match n, s with
  | S n', String c s' => String c (take n' s')
  | _, _ => EmptyString
  end.

Fixpoint drop (n : nat) (s : string) : string :=
  match n, s with
  | S n', String _ s' => drop n' s'
  | _, _ => s
  end.

(** ["0".repeat(n)]. *)
Fixpoint zeros (n : nat) : string :=
  match n with
  | O => EmptyString
  | S n' => String "0" (zeros n')
  end.

(** [s.split(sep)] for a non-empty separator: the pieces between the
    successive leftmost occurrences of [sep].  [skip] counts the code units
    of a matched separator still to be passed over; [cur] holds the piece
    being read, last code unit first. *)
Fixpoint split_go (sep : string) (skip : nat) (cur : list ascii) (s : string)
  : list string :=
  match s with
  | EmptyString => [string_of_list_ascii (rev cur)]
  | String c s' =>
      match skip with
      | S k => split_go sep k cur s'
      | O =>
          if startsWith s sep
          then string_of_list_ascii (rev cur)
               :: split_go sep (Nat.pred (String.length sep)) [] s'
          else split_go sep O (c :: cur) s'
      end
  end.

Definition split (s sep : string) : list string := split_go sep O [] s.

End JsString.

(* ===================================================================== *)
(** ** JavaScript numbers *)
(* ===================================================================== *)

(** Numbers are IEEE 754 binary64 values; arithmetic is the Standard
    Library's specification of it at precision 53, with round to nearest,
    ties to even. *)
Module JsNumber.

Definition number : Type := spec_float.

Definition prec : Z := 53.
Definition emax : Z := 1024.

Definition NaN : number := S754_nan.

(** The number an integer literal denotes. *)
Definition ofZ (z : Z) : number := binary_normalize prec emax z 0 false.

Definition div (x y : number) : number := SFdiv prec emax x y.
Definition mul (x y : number) : number := SFmul prec emax x y.

(** [x > y]. *)
Definition gt (x y : number) : bool := SFltb y x.

(** Truthiness of a number: [+0], [-0] and [NaN] are falsy. *)
Definition truthy (x : number) : bool :=
  match x with
  | S754_zero _ | S754_nan => false
  | _ => true
  end.

(** Decimal digits of a non-negative integer. *)
Definition digits (z : Z) : string :=
  NilEmpty.string_of_uint (N.to_uint (Z.to_N z)).

(** *** Exact value of a positive finite double

    [m * 2^e] as the fraction [fnum m e / fden e]. *)
Definition fnum (m : positive) (e : Z) : Z :=
  if 0 <=? e then Zpos m * 2 ^ e else Zpos m.
Definition fden (e : Z) : Z :=
  if 0 <=? e then 1 else 2 ^ (- e).

(** [x < 10^n], for [x = num/den]. *)
Definition below_pow10 (num den n : Z) : bool :=
  if 0 <=? n then num <? den * 10 ^ n else num * 10 ^ (- n) <? den.

(** A lower bound of the decimal exponent of [m * 2^e]: with [b] the
    position of its leading bit, [2^b <= x], and [30102 / 100000] is
    below the decimal logarithm of 2 by less than [10^-5]. *)
Definition pow10_guess (m : positive) (e : Z) : Z :=
  let b := Zpos (digits2_pos m) + e - 1 in
  b * 30102 / 100000 - 1.

(** The least [n], counted up from [n0], with [x < 10^n]. *)
Fixpoint pow10_above (fuel : nat) (num den n0 : Z) : Z :=
  match fuel with
  | O => n0
  | S fuel' =>
      if below_pow10 num den n0 then n0
      else pow10_above fuel' num den (n0 + 1)
  end.

(** *** Number::toString, radix 10

    For a positive finite [x = m * 2^e] the digits are those of the
    integers [n], [k], [s] with [k >= 1], [10^(k-1) <= s < 10^k], the
    number value of [s * 10^(n-k)] equal to [x], and [k] as small as
    possible; among several [s], the one closest to [x], the even one at
    a tie. *)
Section Shortest.
Variables (m : positive) (e : Z).

(** Everything is scaled by [4 * fden e], so that the quarter of the
    gap between two doubles is an integer. *)
Definition scaled_x : Z := 4 * fnum m e.
Definition scaled_den : Z := 4 * fden e.
Definition scaled_ulp : Z := if 0 <=? e then 4 * 2 ^ e else 4.

(** The reals that round to [x]: from the midpoint with the double
    below to the midpoint with the double above, the midpoints included
    when the significand is even.  At a power of two the double below
    is half as far away. *)
Definition scaled_hi : Z := scaled_x + scaled_ulp / 2.
Definition scaled_lo : Z :=
  if (Zpos m =? 2 ^ (prec - 1)) && (3 - emax - prec <? e)
  then scaled_x - scaled_ulp / 4
  else scaled_x - scaled_ulp / 2.

(** [s * 10^q] and a scaled bound [b], brought to a common
    denominator: for [q < 0] both sides are multiplied by [10^(-q)]. *)
Definition lhs (s q : Z) : Z :=
  if 0 <=? q then s * 10 ^ q * scaled_den else s * scaled_den.
Definition rhs (b q : Z) : Z :=
  if 0 <=? q then b else b * 10 ^ (- q).

Definition rounds_to_x (s q : Z) : bool :=
  let v := lhs s q in
  let lo := rhs scaled_lo q in
  let hi := rhs scaled_hi q in
  ((lo <? v) && (v <? hi))
  || (Z.even (Zpos m) && ((v =? lo) || (v =? hi))).

(** [floor (x / 10^q)]. *)
Definition floor_scaled (q : Z) : Z :=
  if 0 <=? q then scaled_x / (scaled_den * 10 ^ q)
  else (scaled_x * 10 ^ (- q)) / scaled_den.

(** [|x - s * 10^q|], on the common denominator. *)
Definition distance (s q : Z) : Z :=
  Z.abs (rhs scaled_x q - lhs s q).

(** The search for the least [k], from [k] upwards; [nx] is the least
    integer with [x < 10^nx].  With [k] digits the candidates are the two
    multiples of [10^(nx-k)] around [x]; the upper one may be [10^nx]
    itself, whose digits are a one and zeros with [n = nx + 1].  The
    result is [(s, n)]; seventeen digits always tell a double apart. *)
Fixpoint shortest_from (fuel : nat) (nx k : Z) : Z * Z :=
  let q := nx - k in
  let s0 := floor_scaled q in
  let s1 := s0 + 1 in
  let up := if s1 =? 10 ^ k then (10 ^ (k - 1), nx + 1) else (s1, nx) in
  match fuel with
  | O => (s0, nx)
  | S fuel' =>
      match rounds_to_x s0 q, rounds_to_x s1 q with
      | true, false => (s0, nx)
      | false, true => up
      | true, true =>
          match distance s0 q ?= distance s1 q with
          | Lt => (s0, nx)
          | Gt => up
          | Eq => if Z.even s0 then (s0, nx) else up
          end
      | false, false => shortest_from fuel' nx (k + 1)
      end
  end.

Definition shortest : Z * Z :=
  let nx := pow10_above 16 (fnum m e) (fden e) (pow10_guess m e) in
  shortest_from 17 nx 1.
End Shortest.

(** The layout of the digits [ds] (of [s]) for the decimal exponent [n]. *)
Definition layout (ds : string) (n : Z) : string :=
  let k := Z.of_nat (String.length ds) in
  if (k <=? n) && (n <=? 21) then
    ds ++ JsString.zeros (Z.to_nat (n - k))
  else if (0 <? n) && (n <=? 21) then
    JsString.take (Z.to_nat n) ds ++ "." ++ JsString.drop (Z.to_nat n) ds
  else if (-6 <? n) && (n <=? 0) then
    "0." ++ JsString.zeros (Z.to_nat (- n)) ++ ds
  else
    let ex := (if 0 <? n - 1 then "+" else "-") ++ digits (Z.abs (n - 1)) in
    if k =? 1 then ds ++ "e" ++ ex
    else JsString.take 1 ds ++ "." ++ JsString.drop 1 ds ++ "e" ++ ex.

Definition toString (x : number) : string :=
  match x with
  | S754_nan => "NaN"
  | S754_zero _ => "0"
  | S754_infinity s => if s then "-Infinity" else "Infinity"
  | S754_finite s m e =>
      let '(d, n) := shortest m e in
      (if s then "-" else "") ++ layout (digits d) n
  end.

(** *** Number.prototype.toFixed

    [x.toFixed(f)] for [0 <= f <= 100]: the integer [n] for which
    [n / 10^f - x] is as close to zero as possible, the larger one if
    there are two, written with [f] digits after the point; values of
    magnitude [10^21] and more, and the non-finite ones, are written by
    [toString]. *)
Definition fixedDigits (f : nat) (n : Z) : string :=
  let ds := digits n in
  match f with
  | O => ds
  | S _ =>
      let k := String.length ds in
      let ds' := JsString.zeros (S f - k) ++ ds in
      let k' := String.length ds' in
      JsString.take (k' - f) ds' ++ "." ++ JsString.drop (k' - f) ds'
  end.

Definition toFixed (x : number) (f : nat) : string :=
  match x with
  | S754_nan => "NaN"
  | S754_infinity s => if s then "-Infinity" else "Infinity"
  | S754_zero _ => fixedDigits f 0
  | S754_finite s m e =>
      let sign := if s then "-" else "" in
      if 10 ^ 21 * fden e <=? fnum m e
      then toString x
      else
        let p := 10 ^ Z.of_nat f in
        let n := (2 * fnum m e * p + fden e) / (2 * fden e) in
        sign ++ fixedDigits f n
  end.

(** The numbers [toFixed] writes in fixed notation: the zeros and the
    finite doubles of magnitude below [10^21]. *)
Definition fixedRange (x : number) : bool :=
  match x with
  | S754_zero _ => true
  | S754_finite _ m e => fnum m e <? 10 ^ 21 * fden e
  | _ => false
  end.

End JsNumber.

(* ===================================================================== *)
(** ** Values, errors and completions *)
(* ===================================================================== *)

Module Js.
Import JsNumber.

(** The values a CSV cell holds before it is written: a string or a
    number. *)
Inductive value : Type :=
| VStr (s : string)
| VNum (x : number).

(** Conversion to string, as in a template literal [`${v}`]. *)
Definition ToString (v : value) : string :=
  match v with
  | VStr s => s
  | VNum x => JsNumber.toString x
  end.

(** [a || b] on an optional string: [a] when it is present and not
    empty. *)
Definition strOr (a : option string) (b : string) : string :=
  match a with
  | Some s => if JsString.truthy s then s else b
  | None => b
  end.

(** [a || b] on an optional number: [a] when it is present, not zero and
    not [NaN]. *)
Definition numOr (a : option number) (b : number) : number :=
  match a with
  | Some x => if JsNumber.truthy x then x else b
  | None => b
  end.

(** Conversion to number of a field that holds a number when present:
    [undefined] becomes [NaN]. *)
Definition ToNumber (a : option number) : number :=
  match a with
  | Some x => x
  | None => NaN
  end.

(** Truthiness of an optional string field. *)
Definition truthyStr (a : option string) : bool :=
  match a with
  | Some s => JsString.truthy s
  | None => false
  end.

(** The error object a rejected request or a failing statement throws:
    [err.response?.status], [err.response?.data?.message] and [err.code]
    are what the handlers read. *)
Record ErrData : Type := { message : option string }.
Record ErrResponse : Type := { status : option Z; data : option ErrData }.
Record Error : Type := { response : option ErrResponse; code : option string }.

(** A [TypeError] raised by the run time carries neither a response nor a
    code. *)
Definition TypeError : Error := {| response := None; code := None |}.

(** [err.response?.status] *)
Definition errStatus (err : Error) : option Z :=
  match response err with
  | Some r => status r
  | None => None
  end.

(** [err.response?.data?.message] *)
Definition errMessage (err : Error) : option string :=
  match response err with
  | Some r => match data r with
              | Some d => message d
              | None => None
              end
  | None => None
  end.

(** What [await api.get(...)] comes back with. *)
Inductive reply (A : Type) : Type :=
| Resolved (response_data : A)
| Rejected (err : Error).
Arguments Resolved {A} _.
Arguments Rejected {A} _.

(** How a statement completes: normally with a value, by a [return]
    that leaves the enclosing function, or by throwing. *)
Inductive completion (A : Type) : Type :=
| Normal (a : A)
| Return
| Throw (err : Error).
Arguments Normal {A} _.
Arguments Return {A}.
Arguments Throw {A} _.

(** Statements over a state [S]. *)
Definition M (S A : Type) : Type := S -> completion A * S.

Section Monad.
Context {S : Type}.

Definition ret {A} (a : A) : M S A := fun s => (Normal a, s).

Definition bind {A B} (c : M S A) (k : A -> M S B) : M S B :=
  fun s =>
    match c s with
    | (Normal a, s') => k a s'
    | (Return, s') => (Return, s')
    | (Throw e, s') => (Throw e, s')
    end.

Definition throw {A} (e : Error) : M S A := fun s => (Throw e, s).

(** [return;] *)
Definition returnNow {A} : M S A := fun s => (Return, s).

(** A state update. *)
Definition modify (f : S -> S) : M S unit := fun s => (Normal tt, f s).

Definition get : M S S := fun s => (Normal s, s).

(** [await p] *)
Definition await {A} (r : reply A) : M S A :=
  match r with
  | Resolved a => ret a
  | Rejected e => throw e
  end.

(** [try { body } catch (err) { handler }] *)
Definition tryCatch (body : M S unit) (handler : Error -> M S unit)
  : M S unit :=
  fun s =>
    match body s with
    | (Throw e, s') => handler e s'
    | other => other
    end.

(** [try { body } finally { fin }]: [fin] runs however [body]
    completes; the completion of [body] stands unless [fin] itself
    completes abruptly. *)
Definition tryFinally (body : M S unit) (fin : M S unit) : M S unit :=
  fun s =>
    let '(c, s') := body s in
    match fin s' with
    | (Normal _, s'') => (c, s'')
    | abrupt => abrupt
    end.

(** The call of an async function whose body is [body]: a [return]
    ends the call normally, a [throw] leaves it as a rejection. *)
Definition call (body : M S unit) : M S unit :=
  fun s =>
    match body s with
    | (Return, s') => (Normal tt, s')
    | other => other
    end.
End Monad.

Notation "x <- c ;; k" := (bind c (fun x => k))
  (at level 61, c at next level, right associativity).
Notation "c ;; k" := (bind c (fun _ => k))
  (at level 61, right associativity).
Notation "' pat <- c ;; k" := (bind c (fun x => match x with pat => k end))
  (at level 61, pat pattern, c at next level, right associativity).

End Js.

(* ===================================================================== *)
(** ** Records shared by the two components *)
(* ===================================================================== *)

(** An employee as the service embeds it in leaves and report records.
    Every property may be missing. *)
Module Department.
Record t : Type := { name : option string }.
End Department.

Module Employee.
Record t : Type := {
  firstName : option string;
  lastName : option string;
  email : option string;
  department : option Department.t
}.
End Employee.

(** Optional chaining [o?.f]. *)
Definition chain {A B : Type} (o : option A) (f : A -> option B) : option B :=
  match o with
  | Some a => f a
  | None => None
  end.

Definition dquote : ascii := ascii_of_nat 34.
Definition newline : ascii := ascii_of_nat 10.

(* ===================================================================== *)
(** ** Reports.jsx *)
(* ===================================================================== *)

Module Reports.
Import JsNumber Js.

(** One element of [response.data.report].  The three report kinds read
    different properties of it; every property may be missing: [None] is
    the value [undefined].  The code treats [null] like it everywhere but
    in the division of the attendance rate, where [null] counts as 0.
    [positions] is the object's own entries in enumeration order. *)
Record ReportRecord : Type := {
  employee : option Employee.t;
  present : option number;
  absent : option number;
  late : option number;
  total : option number;
  approved : option number;
  pending : option number;
  rejected : option number;
  department : option string;
  positions : option (list (string * number))
}.

(** [response.data] *)
Record ReportResponse : Type := {
  success : bool;
  report : option (list ReportRecord)
}.

(** A request sent through [api.get]: the path and, for the monthly
    reports, the [month] and [year] parameters. *)
Record Request : Type := {
  url : string;
  params : option (number * number)
}.

(** A file handed to the browser: the anchor's [download] name and the
    text of the blob. *)
Record Download : Type := {
  filename : string;
  content : string
}.

(** The component's state ([useState]), with the requests sent and the
    files downloaded so far. *)
Record State : Type := {
  loading : bool;
  error : option string;
  selectedMonth : number;
  selectedYear : number;
  requests : list Request;
  downloads : list Download
}.

Definition setLoading (b : bool) : M State unit :=
  modify (fun s => {| loading := b; error := error s;
                      selectedMonth := selectedMonth s;
                      selectedYear := selectedYear s;
                      requests := requests s; downloads := downloads s |}).

Definition setError (e : option string) : M State unit :=
  modify (fun s => {| loading := loading s; error := e;
                      selectedMonth := selectedMonth s;
                      selectedYear := selectedYear s;
                      requests := requests s; downloads := downloads s |}).

Definition apiGet (u : string) (p : option (number * number)) : M State unit :=
  modify (fun s => {| loading := loading s; error := error s;
                      selectedMonth := selectedMonth s;
                      selectedYear := selectedYear s;
                      requests := requests s ++ [{| url := u; params := p |}];
                      downloads := downloads s |}).

(** The blob, the object URL and the click on the anchor. *)
Definition download (name csv : string) : M State unit :=
  modify (fun s => {| loading := loading s; error := error s;
                      selectedMonth := selectedMonth s;
                      selectedYear := selectedYear s;
                      requests := requests s;
                      downloads := downloads s
                                   ++ [{| filename := name; content := csv |}] |}).

(** The error banner is rendered when [error] is truthy. *)
Definition errorShown (s : State) : bool := truthyStr (error s).

(** [`"${v}"`] *)
Definition quoted (v : value) : string :=
  String dquote (ToString v ++ String dquote EmptyString).

(** [[header, ...rows].map((row) => row.map((v) => `"${v}"`).join(",")).join("\n")],
    the closing expression of the three generators. *)
Definition csvLine (row : list value) : string :=
  JsString.join "," (map quoted row).

Definition csvDocument (rows : list (list value)) : string :=
  JsString.join (String newline EmptyString) (map csvLine rows).

Definition employeeName (record : ReportRecord) : string :=
  strOr (chain (employee record) Employee.firstName) "N/A" ++ " "
  ++ strOr (chain (employee record) Employee.lastName) "N/A".

Definition employeeEmail (record : ReportRecord) : string :=
  strOr (chain (employee record) Employee.email) "N/A".

Definition employeeDepartment (record : ReportRecord) : string :=
  strOr (chain (chain (employee record) Employee.department) Department.name)
        "N/A".

Definition attendanceHeader : list value :=
  [VStr "Employee Name"; VStr "Email"; VStr "Department";
   VStr "Present Days"; VStr "Absent Days"; VStr "Late Days";
   VStr "Total Days"; VStr "Attendance Rate"].

(** [record.total > 0 ? ((record.present / record.total) * 100).toFixed(2) : "0.00"] *)
Definition attendanceRate (record : ReportRecord) : string :=
  if gt (ToNumber (total record)) (ofZ 0)
  then toFixed (mul (div (ToNumber (present record)) (ToNumber (total record)))
                    (ofZ 100)) 2
  else "0.00".

Definition attendanceRow (record : ReportRecord) : list value :=
  [VStr (employeeName record);
   VStr (employeeEmail record);
   VStr (employeeDepartment record);
   VNum (numOr (present record) (ofZ 0));
   VNum (numOr (absent record) (ofZ 0));
   VNum (numOr (late record) (ofZ 0));
   VNum (numOr (total record) (ofZ 0));
   VStr (attendanceRate record ++ "%")].

Definition generateAttendanceCSV (report : list ReportRecord) : string :=
  csvDocument (attendanceHeader :: map attendanceRow report).

Definition leaveHeader : list value :=
  [VStr "Employee Name"; VStr "Email"; VStr "Department";
   VStr "Approved Leaves"; VStr "Pending Leaves"; VStr "Rejected Leaves";
   VStr "Total Leaves"].

Definition leaveRow (record : ReportRecord) : list value :=
  [VStr (employeeName record);
   VStr (employeeEmail record);
   VStr (employeeDepartment record);
   VNum (numOr (approved record) (ofZ 0));
   VNum (numOr (pending record) (ofZ 0));
   VNum (numOr (rejected record) (ofZ 0));
   VNum (numOr (total record) (ofZ 0))].

Definition generateLeaveCSV (report : list ReportRecord) : string :=
  csvDocument (leaveHeader :: map leaveRow report).

Definition departmentHeader : list value :=
  [VStr "Department"; VStr "Total Employees"; VStr "Positions"].

(** [Object.entries(record.positions).map(([pos, count]) => `${pos}: ${count}`).join(", ")] *)
Definition positionsCell (entries : list (string * number)) : string :=
  JsString.join ", "
    (map (fun '(pos, count) => pos ++ ": " ++ JsNumber.toString count) entries).

Definition departmentRow (record : ReportRecord) : list value :=
  [VStr (strOr (department record) "N/A");
   VNum (numOr (total record) (ofZ 0));
   VStr (match positions record with
         | Some entries => positionsCell entries
         | None => "N/A"
         end)].

Definition generateDepartmentCSV (report : list ReportRecord) : string :=
  csvDocument (departmentHeader :: map departmentRow report).

(** [!response.data.report || response.data.report.length === 0] *)
Definition noReport (r : option (list ReportRecord)) : bool :=
  match r with
  | None => true
  | Some l => Nat.eqb (List.length l) 0
  end.

(** The [catch] block of [handleGenerateReport]. *)
Definition reportFailure (err : Error) : M State unit :=
  if match errStatus err with Some c => c =? 401 | None => false end then
    setError (Some "Authentication failed. Please login again.")
  else if match errStatus err with Some c => c =? 403 | None => false end then
    setError (Some "Access denied. You don't have permission to generate reports.")
  else if match errStatus err with Some c => c =? 404 | None => false end then
    setError (Some "Report endpoint not found. Please check the server configuration.")
  else if match errStatus err with Some c => c =? 500 | None => false end then
    setError (Some "Server error. Please try again later.")
  else if match code err with
          | Some c => String.eqb c "ECONNREFUSED"
          | None => false
          end then
    setError (Some "Cannot connect to server. Please check if the backend is running.")
  else
    setError (Some (strOr (errMessage err)
                          "Failed to generate report. Please try again.")).

(** [handleGenerateReport(type)], with [r] what the awaited request
    comes back with. *)
Definition handleGenerateReport (type : string) (r : reply ReportResponse)
  : M State unit :=
  call (
    setLoading true ;;
    setError None ;;
    tryFinally
      (tryCatch
         (s <- get ;;
          (if String.eqb type "department"
           then apiGet "/employee/reports/department" None
           else apiGet ("/employee/reports/" ++ type)
                       (Some (selectedMonth s, selectedYear s))) ;;
          response <- await r ;;
          if success response then
            (if noReport (report response)
             then
               setError (Some ("No data available for " ++ type
                               ++ " report in "
                               ++ JsNumber.toString (selectedMonth s) ++ "/"
                               ++ JsNumber.toString (selectedYear s))) ;;
               returnNow
             else ret tt) ;;
            let records := match report response with
                           | Some l => l
                           | None => []
                           end in
            '(csvContent, name) <-
              (if String.eqb type "attendance" then
                 ret (generateAttendanceCSV records,
                      "attendance_report_"
                      ++ JsNumber.toString (selectedYear s) ++ "_"
                      ++ JsNumber.toString (selectedMonth s) ++ ".csv")
               else if String.eqb type "leave" then
                 ret (generateLeaveCSV records,
                      "leave_report_"
                      ++ JsNumber.toString (selectedYear s) ++ "_"
                      ++ JsNumber.toString (selectedMonth s) ++ ".csv")
               else if String.eqb type "department" then
                 ret (generateDepartmentCSV records, "department_report.csv")
               else
                 setError (Some "Invalid report type") ;;
                 returnNow) ;;
            download name csvContent
          else
            setError (Some "Failed to generate report"))
         reportFailure)
      (setLoading false)).

(** *** The rest of the component *)

(** [Array.from({ length: 12 }, (_, i) => i + 1)]: the values of the
    month options. *)
Definition monthOptions : list number :=
  map (fun i => ofZ (Z.of_nat i + 1)) (seq 0 12).

(** [Array.from({ length: 5 }, (_, i) => new Date().getFullYear() - 2 + i)]:
    the values of the year options, for the current year. *)
Definition yearOptions (fullYear : Z) : list number :=
  map (fun i => ofZ (fullYear - 2 + Z.of_nat i)) (seq 0 5).

(** The state the component mounts with, for [new Date().getMonth()]
    (0 to 11) and [new Date().getFullYear()]. *)
Definition initialState (monthIndex fullYear : Z) : State :=
  {| loading := false; error := None;
     selectedMonth := ofZ (monthIndex + 1);
     selectedYear := ofZ fullYear;
     requests := []; downloads := [] |}.

(** The three buttons are disabled while [loading]. *)
Definition buttonsDisabled (s : State) : bool := loading s.

End Reports.

(* ===================================================================== *)
(** ** LeaveList.jsx *)
(* ===================================================================== *)

Module Leave.
(** One element of [response.data.leaves]. *)
Record t : Type := {
  _id : string;
  employee : option Employee.t;
  type : option string;
  reason : option string;
  status : option string
}.
End Leave.

Module LeaveList.
Import JsNumber Js.

(** [response.data] of the list request; [leaves] may be missing. *)
Module LeavesData.
Record t : Type := {
  success : bool;
  leaves : option (list Leave.t)
}.
End LeavesData.

(** [response.data] of the cleanup request. *)
Module CleanupData.
Record t : Type := {
  success : bool;
  deletedCount : option number
}.
End CleanupData.

(** The requests the component sends. *)
Inductive Request : Type :=
| GetLeaves (status_param : option string)
| DeleteCleanup.

(** What a timer set with [setTimeout] does when it fires. *)
Inductive TimerAction : Type :=
| ClearSuccess.

(** The component's state ([useState]), with the requests sent and the
    timers set so far (delay in milliseconds). *)
Record State : Type := {
  leaves : list Leave.t;
  loading : bool;
  error : option string;
  success : option string;
  status : string;
  search : string;
  dataIssues : list Leave.t;
  requests : list Request;
  timers : list (Z * TimerAction)
}.

Definition setLeaves (l : list Leave.t) : M State unit :=
  modify (fun s => {| leaves := l; loading := loading s; error := error s;
                      success := success s; status := status s;
                      search := search s; dataIssues := dataIssues s;
                      requests := requests s; timers := timers s |}).

Definition setLoading (b : bool) : M State unit :=
  modify (fun s => {| leaves := leaves s; loading := b; error := error s;
                      success := success s; status := status s;
                      search := search s; dataIssues := dataIssues s;
                      requests := requests s; timers := timers s |}).

Definition setError (e : option string) : M State unit :=
  modify (fun s => {| leaves := leaves s; loading := loading s; error := e;
                      success := success s; status := status s;
                      search := search s; dataIssues := dataIssues s;
                      requests := requests s; timers := timers s |}).

Definition setSuccess (m : option string) : M State unit :=
  modify (fun s => {| leaves := leaves s; loading := loading s;
                      error := error s;
                      success := m; status := status s;
                      search := search s; dataIssues := dataIssues s;
                      requests := requests s; timers := timers s |}).

Definition setDataIssues (l : list Leave.t) : M State unit :=
  modify (fun s => {| leaves := leaves s; loading := loading s;
                      error := error s;
                      success := success s; status := status s;
                      search := search s; dataIssues := l;
                      requests := requests s; timers := timers s |}).

Definition send (r : Request) : M State unit :=
  modify (fun s => {| leaves := leaves s; loading := loading s;
                      error := error s;
                      success := success s; status := status s;
                      search := search s; dataIssues := dataIssues s;
                      requests := requests s ++ [r]; timers := timers s |}).

Definition setTimeout (a : TimerAction) (ms : Z) : M State unit :=
  modify (fun s => {| leaves := leaves s; loading := loading s;
                      error := error s;
                      success := success s; status := status s;
                      search := search s; dataIssues := dataIssues s;
                      requests := requests s;
                      timers := timers s ++ [(ms, a)] |}).

(** The callback of a timer. *)
Definition fire (a : TimerAction) : M State unit :=
  match a with
  | ClearSuccess => setSuccess None
  end.

(** [!leave.employee] *)
Definition noEmployee (leave : Leave.t) : bool :=
  match Leave.employee leave with
  | Some _ => false
  | None => true
  end.

(** [api.get("/employee/leaves/all", { params: { status: status !== "all" ? status : undefined } })] *)
Definition apiGetLeaves : M State unit :=
  s <- get ;;
  send (GetLeaves (if String.eqb (status s) "all" then None
                   else Some (status s))).

(** The [try] block of [fetchLeaves] after the request is sent. *)
Definition fetchLeavesBody (r : reply LeavesData.t) : M State unit :=
  response <- await r ;;
  if LeavesData.success response then
    received <- match LeavesData.leaves response with
                | Some l => ret l
                | None => throw TypeError
                end ;;
    let invalidLeaves := filter noEmployee received in
    (if (0 <? Z.of_nat (List.length invalidLeaves))
     then setDataIssues invalidLeaves
     else setDataIssues []) ;;
    setLeaves received
  else
    setError (Some "Failed to load leave requests").

(** [fetchLeaves()], with [r] what the awaited request comes back with. *)
Definition fetchLeaves (r : reply LeavesData.t) : M State unit :=
  call (
    setLoading true ;;
    setError None ;;
    tryFinally
      (tryCatch
         (apiGetLeaves ;; fetchLeavesBody r)
         (fun err =>
            setError (Some (strOr (errMessage err)
                                  "Failed to load leave requests"))))
      (setLoading false)).

(** What a call [fetchLeaves()] that is not awaited runs before control
    comes back to the caller: the statements up to the [await]. *)
Definition fetchLeavesSent : M State unit :=
  setLoading true ;;
  setError None ;;
  apiGetLeaves.

(** [`${response.data.deletedCount}`] *)
Definition countText (c : option number) : string :=
  match c with
  | Some n => JsNumber.toString n
  | None => "undefined"
  end.

(** [handleCleanup()], with [r] what the awaited request comes back
    with. *)
Definition handleCleanup (r : reply CleanupData.t) : M State unit :=
  call (
    tryFinally
      (tryCatch
         (setLoading true ;;
          send DeleteCleanup ;;
          response <- await r ;;
          if CleanupData.success response then
            setSuccess (Some ("Cleaned up "
                              ++ countText (CleanupData.deletedCount response)
                              ++ " orphaned leave records")) ;;
            setDataIssues [] ;;
            fetchLeavesSent ;;
            setTimeout ClearSuccess 5000
          else ret tt)
         (fun err =>
            setError (Some (strOr (errMessage err)
                                  "Failed to clean up orphaned records"))))
      (setLoading false)).

(** The text the search runs over. *)
Definition searchStr (leave : Leave.t) (emp : Employee.t) : string :=
  JsString.toLowerCase
    (JsString.join " "
       [strOr (Employee.firstName emp) "";
        strOr (Employee.lastName emp) "";
        strOr (Employee.email emp) "";
        strOr (Leave.type leave) "";
        strOr (Leave.reason leave) ""]).

(** The callback of [leaves.filter] in [filteredLeaves]. *)
Definition shown (search : string) (leave : Leave.t) : bool :=
  match Leave.employee leave with
  | None => false
  | Some emp =>
      if negb (truthyStr (Employee.firstName emp)) then false
      else if negb (truthyStr (Leave.type leave))
              || negb (truthyStr (Leave.reason leave)) then false
      else JsString.includes (searchStr leave emp)
                             (JsString.toLowerCase search)
  end.

(** [filteredLeaves], the sequence the component displays. *)
Definition filteredLeaves (s : State) : list Leave.t :=
  filter (shown (search s)) (leaves s).

(** The data-integrity warning is rendered when
    [dataIssues.length > 0]. *)
Definition warningShown (s : State) : bool :=
  0 <? Z.of_nat (List.length (dataIssues s)).

(** The error banner is rendered when [error] is truthy. *)
Definition errorShown (s : State) : bool := truthyStr (error s).

(** *** The rest of the component *)

(** The state the component mounts with: the [useState] defaults. *)
Definition initialState : State :=
  {| leaves := []; loading := true; error := None; success := None;
     status := "all"; search := ""; dataIssues := [];
     requests := []; timers := [] |}.

(** [setSearch(e.target.value)] and [setStatus(e.target.value)], the
    [onChange] handlers of the two filters. *)
Definition setSearch (q : string) : M State unit :=
  modify (fun s => {| leaves := leaves s; loading := loading s;
                      error := error s;
                      success := success s; status := status s;
                      search := q; dataIssues := dataIssues s;
                      requests := requests s; timers := timers s |}).

Definition setStatus (st : string) : M State unit :=
  modify (fun s => {| leaves := leaves s; loading := loading s;
                      error := error s;
                      success := success s; status := st;
                      search := search s; dataIssues := dataIssues s;
                      requests := requests s; timers := timers s |}).

(** The part of [fetchLeaves] that runs once its request has come back:
    the rest of the [try] block, the [catch] and the [finally]. *)
Definition fetchLeavesResume (r : reply LeavesData.t) : M State unit :=
  call (
    tryFinally
      (tryCatch
         (fetchLeavesBody r)
         (fun err =>
            setError (Some (strOr (errMessage err)
                                  "Failed to load leave requests"))))
      (setLoading false)).

(** [handleCleanup] up to its [await], and from there on. *)
Definition handleCleanupSent : M State unit :=
  setLoading true ;;
  send DeleteCleanup.

Definition handleCleanupResume (r : reply CleanupData.t) : M State unit :=
  call (
    tryFinally
      (tryCatch
         (response <- await r ;;
          if CleanupData.success response then
            setSuccess (Some ("Cleaned up "
                              ++ countText (CleanupData.deletedCount response)
                              ++ " orphaned leave records")) ;;
            setDataIssues [] ;;
            fetchLeavesSent ;;
            setTimeout ClearSuccess 5000
          else ret tt)
         (fun err =>
            setError (Some (strOr (errMessage err)
                                  "Failed to clean up orphaned records"))))
      (setLoading false)).

(** [response.data] of the status update. *)
Module StatusData.
Record t : Type := {
  success : bool
}.
End StatusData.

(** A request [api.put(`/employee/leaves/${leaveId}/status`, { status: newStatus })]:
    its path and the [status] of its body. *)
Record StatusUpdate : Type := {
  put_url : string;
  put_status : string
}.

(** The component's state together with the status updates sent so
    far. *)
Record Page : Type := {
  state : State;
  updates : list StatusUpdate
}.

(** A statement over the state, run on the page. *)
Definition onState {A : Type} (c : M State A) : M Page A :=
  fun p =>
    let '(r, s') := c (state p) in
    (r, {| state := s'; updates := updates p |}).

Definition apiPutStatus (leaveId newStatus : string) : M Page unit :=
  modify (fun p =>
            {| state := state p;
               updates := updates p
                          ++ [{| put_url := "/employee/leaves/" ++ leaveId
                                            ++ "/status";
                                 put_status := newStatus |}] |}).

(** [handleStatusChange(leaveId, newStatus)] up to its [await], and from
    there on; [r] is what the awaited request comes back with. *)
Definition handleStatusChangeSent (leaveId newStatus : string) : M Page unit :=
  apiPutStatus leaveId newStatus.

Definition handleStatusChangeResume (r : reply StatusData.t) : M Page unit :=
  call (
    tryCatch
      (response <- await r ;;
       if StatusData.success response then
         onState (setSuccess (Some "Leave status updated successfully")) ;;
         onState fetchLeavesSent ;;
         onState (setTimeout ClearSuccess 3000)
       else ret tt)
      (fun err =>
         onState (setError (Some (strOr (errMessage err)
                                        "Failed to update leave status"))))).

(** [handleStatusChange(leaveId, newStatus)]. *)
Definition handleStatusChange (leaveId newStatus : string)
  (r : reply StatusData.t) : M Page unit :=
  call (
    tryCatch
      (apiPutStatus leaveId newStatus ;;
       response <- await r ;;
       if StatusData.success response then
         onState (setSuccess (Some "Leave status updated successfully")) ;;
         onState fetchLeavesSent ;;
         onState (setTimeout ClearSuccess 3000)
       else ret tt)
      (fun err =>
         onState (setError (Some (strOr (errMessage err)
                                        "Failed to update leave status"))))).

(** What happens on the page: a handler runs up to its [await], a
    handler goes on with the reply to its request, a timer fires, or a
    filter is changed. *)
Inductive Event : Type :=
| FetchSent
| FetchBack (r : reply LeavesData.t)
| CleanupSent
| CleanupBack (r : reply CleanupData.t)
| StatusChangeSent (leaveId newStatus : string)
| StatusChangeBack (r : reply StatusData.t)
| TimerFired (a : TimerAction)
| SearchTyped (q : string)
| StatusPicked (st : string).

Definition step (e : Event) : M Page unit :=
  match e with
  | FetchSent => onState fetchLeavesSent
  | FetchBack r => onState (fetchLeavesResume r)
  | CleanupSent => onState handleCleanupSent
  | CleanupBack r => onState (handleCleanupResume r)
  | StatusChangeSent leaveId newStatus =>
      handleStatusChangeSent leaveId newStatus
  | StatusChangeBack r => handleStatusChangeResume r
  | TimerFired a => onState (fire a)
  | SearchTyped q => onState (setSearch q)
  | StatusPicked st => onState (setStatus st)
  end.

(** The page after a sequence of events. *)
Fixpoint after (events : list Event) (p : Page) : Page :=
  match events with
  | [] => p
  | e :: rest => after rest (snd (step e p))
  end.

Definition initialPage : Page :=
  {| state := initialState; updates := [] |}.

(** *** What is rendered *)

(** The success banner is rendered when [success] is truthy. *)
Definition successShown (s : State) : bool := truthyStr (success s).




(** What stands below the filters: the loading text, the empty text, or
    one card per displayed leave. *)
Inductive ListView : Type :=
| LoadingText
| NoLeavesText
| Cards (shownLeaves : list Leave.t).

Definition listView (s : State) : ListView :=
  if loading s then LoadingText
  else if Nat.eqb (List.length (filteredLeaves s)) 0 then NoLeavesText
  else Cards (filteredLeaves s).

(** [!leave.employee || !leave.employee.firstName], the test in the
    callback of [filteredLeaves.map] that renders the card "Invalid
    Leave Record". *)
Definition invalidCard (leave : Leave.t) : bool :=
  match Leave.employee leave with
  | None => true
  | Some emp => negb (truthyStr (Employee.firstName emp))
  end.

(** [leave.type ? ... : "N/A"]: whether the type line falls back to
    "N/A". *)
Definition typeFallsBack (leave : Leave.t) : bool :=
  negb (truthyStr (Leave.type leave)).

(** [leave.reason || "N/A"] *)
Definition reasonText (leave : Leave.t) : string :=
  strOr (Leave.reason leave) "N/A".

(** The colours of the status badge. *)
Inductive Badge : Type := Green | Red | Yellow.

(** [leave.status === "approved" ? green : leave.status === "rejected" ? red : yellow] *)
Definition badge (leave : Leave.t) : Badge :=
  match Leave.status leave with
  | Some st =>
      if String.eqb st "approved" then Green
      else if String.eqb st "rejected" then Red
      else Yellow
  | None => Yellow
  end.

(** [!leave.status || leave.status === "pending"]: whether the Approve
    and Reject buttons are rendered. *)
Definition showActions (leave : Leave.t) : bool :=
  negb (truthyStr (Leave.status leave))
  || match Leave.status leave with
     | Some st => String.eqb st "pending"
     | None => false
     end.

End LeaveList.

(* ===================================================================== *)
(** ** api.js *)
(* ===================================================================== *)

Module Api.
Import Js.

(** The headers of a request: the own properties of [config.headers], in
    the order they were added. *)
Definition Headers : Type := list (string * string).

(** [headers[k]] *)
Fixpoint getHeader (k : string) (h : Headers) : option string :=
  match h with
  | [] => None
  | (k', v) :: rest => if String.eqb k k' then Some v else getHeader k rest
  end.

(** [headers[k] = v]: an existing property keeps its place, a new one
    comes last. *)
Fixpoint setHeader (k v : string) (h : Headers) : Headers :=
  match h with
  | [] => [(k, v)]
  | (k', v') :: rest =>
      if String.eqb k k' then (k', v) :: rest
      else (k', v') :: setHeader k v rest
  end.

(** The request configuration the interceptor receives. *)
Record Config : Type := {
  method : option string;
  baseURL : option string;
  url : option string;
  headers : Headers
}.

(** The axios instance: [axios.create({ baseURL: ... })]. *)
Definition baseURL_of_api : string := "https://emsbackend-gizp.onrender.com/".

(** The request interceptor, with [token] what
    [localStorage.getItem("token")] gives ([None] for [null]). *)
Definition requestInterceptor (token : option string) (config : Config)
  : Config :=
  if truthyStr token then
    {| method := method config; baseURL := baseURL config;
       url := url config;
       headers := setHeader "Authorization"
                    ("Bearer " ++ strOr token "") (headers config) |}
  else config.

(** The response interceptors: a response is handed on as it is, an
    error is rejected again as it is. *)
Definition responseInterceptor {A : Type} (r : reply A) : reply A :=
  match r with
  | Resolved response => Resolved response
  | Rejected err => Rejected err
  end.

End Api.

(* ===================================================================== *)
(** ** The specification's own notions *)
(* ===================================================================== *)

Module Spec.
Import Js.

(** Section 3 of the specification: a leave record is valid iff its
    employee reference is a non-null object carrying a first name, its
    type is non-empty and its reason is non-empty. *)
Definition valid (leave : Leave.t) : bool :=
  match Leave.employee leave with
  | Some emp => truthyStr (Employee.firstName emp)
  | None => false
  end
  && truthyStr (Leave.type leave)
  && truthyStr (Leave.reason leave).

(** A failed list request: a thrown transport error, or a response with
    [success] false. *)
Definition fetchFailed (r : reply LeaveList.LeavesData.t) : bool :=
  match r with
  | Rejected _ => true
  | Resolved d => negb (LeaveList.LeavesData.success d)
  end.

(** Reading a document back: rows are split on the line break; in a row
    the outer quotes are dropped and the cells are split on the
    quote-comma-quote delimiter. *)
Definition cellDelimiter : string :=
  String dquote (String "," (String dquote EmptyString)).

Fixpoint dropLast (s : string) : string :=
  match s with
  | EmptyString => EmptyString
  | String c EmptyString => EmptyString
  | String c s' => String c (dropLast s')
  end.

Definition parseLine (line : string) : list string :=
  JsString.split (dropLast (JsString.drop 1 line)) cellDelimiter.

Definition parseCSV (doc : string) : list (list string) :=
  map parseLine (JsString.split doc (String newline EmptyString)).

(** A cell the reading recovers whatever its neighbours: it holds no
    line break, and no double quote immediately followed by a comma. *)
Definition plainCell (s : string) : bool :=
  negb (JsString.includes s (String newline EmptyString))
  && negb (JsString.includes s (String dquote (String "," EmptyString))).

Definition plainRows (rows : list (list value)) : bool :=
  forallb (forallb (fun v => plainCell (ToString v))) rows.

(** The report kinds, each with its header, its projection of a record
    to a row and its generator. *)
Inductive kind : Type := Attendance | Leave | Department.

Definition header (k : kind) : list value :=
  match k with
  | Attendance => Reports.attendanceHeader
  | Leave => Reports.leaveHeader
  | Department => Reports.departmentHeader
  end.

Definition row (k : kind) : Reports.ReportRecord -> list value :=
  match k with
  | Attendance => Reports.attendanceRow
  | Leave => Reports.leaveRow
  | Department => Reports.departmentRow
  end.

Definition generateCSV (k : kind) : list Reports.ReportRecord -> string :=
  match k with
  | Attendance => Reports.generateAttendanceCSV
  | Leave => Reports.generateLeaveCSV
  | Department => Reports.generateDepartmentCSV
  end.

(** The attendance-rate cell of a record's row. *)
Definition rateCell (record : Reports.ReportRecord) : string :=
  nth 7 (map ToString (Reports.attendanceRow record)) "".

(** A text rendered to exactly two decimal places: an optional minus
    sign, one or more digits, a point and two digits. *)
Definition isDigit (c : ascii) : bool :=
  ((48 <=? N_of_ascii c) && (N_of_ascii c <=? 57))%N.

Fixpoint allDigits (s : string) : bool :=
  match s with
  | EmptyString => true
  | String c s' => isDigit c && allDigits s'
  end.

Definition isFraction (s : string) : bool :=
  match s with
  | String p (String a (String b EmptyString)) =>
      Ascii.eqb p "." && isDigit a && isDigit b
  | _ => false
  end.

Fixpoint wholeThenFraction (s : string) : bool :=
  match s with
  | EmptyString => false
  | String c s' => isDigit c && (wholeThenFraction s' || isFraction s')
  end.

Definition twoDecimals (s : string) : bool :=
  match s with
  | EmptyString => false
  | String c s' => if Ascii.eqb c "-" then wholeThenFraction s'
                   else wholeThenFraction s
  end.

(** [present / total * 100] in exact arithmetic, rounded to the nearest
    hundredth (a half goes up), with the percent sign; for
    [0 <= present] and [0 < total]. *)
Definition twoDigits (r : Z) : string :=
  if r <? 10 then "0" ++ JsNumber.digits r else JsNumber.digits r.

Definition percentOf (p t : Z) : string :=
  let n := (20000 * p + t) / (2 * t) in
  JsNumber.digits (n / 100) ++ "." ++ twoDigits (n mod 100) ++ "%".

(** The integers [lo], [lo + 1], ..., [lo + n - 1]. *)
Definition zrange (lo : Z) (n : nat) : list Z :=
  map (fun k => lo + Z.of_nat k) (seq 0 n).

(** The counts of a month: for every total from 1 to 31 days and every
    number of days present up to the total, the total is greater than zero
    and the rate the code computes in doubles is the exact one. *)
Definition monthTable : bool :=
  forallb (fun t =>
    forallb (fun p =>
      JsNumber.gt (JsNumber.ofZ t) (JsNumber.ofZ 0)
      && String.eqb
           (JsNumber.toFixed
              (JsNumber.mul (JsNumber.div (JsNumber.ofZ p) (JsNumber.ofZ t))
                            (JsNumber.ofZ 100)) 2 ++ "%")
           (percentOf p t))
      (zrange 0 (Z.to_nat t + 1)))
    (zrange 1 31).

(** A text field that is missing, or holds a plain cell. *)
Definition plainText (field : option string) : bool :=
  match field with
  | Some text => plainCell text
  | None => true
  end.

(** A report record all of whose text fields are plain: the names, the
    e-mail address and the department of the employee, the department of
    the record and the titles of its positions. *)
Definition plainRecord (record : Reports.ReportRecord) : bool :=
  plainText (chain (Reports.employee record) Employee.firstName)
  && plainText (chain (Reports.employee record) Employee.lastName)
  && plainText (chain (Reports.employee record) Employee.email)
  && plainText (chain (chain (Reports.employee record) Employee.department)
                      Department.name)
  && plainText (Reports.department record)
  && match Reports.positions record with
     | Some entries => forallb (fun entry => plainCell (fst entry)) entries
     | None => true
     end.

(** The characters that are neither a double quote, nor a comma, nor a
    line break. *)
Definition plainChar (c : ascii) : bool :=
  negb (Ascii.eqb c dquote) && negb (Ascii.eqb c ",")
  && negb (Ascii.eqb c newline).

Fixpoint allPlain (s : string) : bool :=
  match s with
  | EmptyString => true
  | String c s' => plainChar c && allPlain s'
  end.

(** Whether a text ends with a double quote. *)
Fixpoint endsWithQuote (s : string) : bool :=
  match s with
  | EmptyString => false
  | String c EmptyString => Ascii.eqb dquote c
  | String _ s' => endsWithQuote s'
  end.

End Spec.

(* ===================================================================== *)
(** ** Sample inputs *)
(* ===================================================================== *)

Module Sample.
Import JsNumber Js.

Definition johnDoe : Employee.t :=
  {| Employee.firstName := Some "John"; Employee.lastName := Some "Doe";
     Employee.email := Some "jd@ems.io"; Employee.department := None |}.

(** A valid leave. *)
Definition sickLeave : Leave.t :=
  {| Leave._id := "l1"; Leave.employee := Some johnDoe;
     Leave.type := Some "sick"; Leave.reason := Some "flu";
     Leave.status := Some "pending" |}.

(** A leave with an employee but no type. *)
Definition untypedLeave : Leave.t :=
  {| Leave._id := "l2"; Leave.employee := Some johnDoe;
     Leave.type := None; Leave.reason := Some "flu";
     Leave.status := Some "pending" |}.

(** A leave whose employee is gone. *)
Definition orphanLeave : Leave.t :=
  {| Leave._id := "l3"; Leave.employee := None;
     Leave.type := Some "casual"; Leave.reason := Some "trip";
     Leave.status := None |}.

(** The state of the leave list when the component mounts, with a given
    search text. *)
Definition mounted (q : string) : LeaveList.State :=
  {| LeaveList.leaves := []; LeaveList.loading := true;
     LeaveList.error := None; LeaveList.success := None;
     LeaveList.status := "all"; LeaveList.search := q;
     LeaveList.dataIssues := []; LeaveList.requests := [];
     LeaveList.timers := [] |}.

(** The state once [received] has been fetched. *)
Definition listed (q : string) (received : list Leave.t) : LeaveList.State :=
  snd (LeaveList.fetchLeaves
         (Resolved {| LeaveList.LeavesData.success := true;
                      LeaveList.LeavesData.leaves := Some received |})
         (mounted q)).

(** A rejection with an HTTP status and a payload message. *)
Definition httpError (c : Z) (m : option string) : Error :=
  {| response := Some {| status := Some c;
                         data := Some {| message := m |} |};
     code := None |}.

(** A rejection before any response arrived. *)
Definition networkError (c : string) : Error :=
  {| response := None; code := Some c |}.

(** The state of the reports page in March 2024. *)
Definition reportsPage : Reports.State :=
  {| Reports.loading := false; Reports.error := None;
     Reports.selectedMonth := ofZ 3; Reports.selectedYear := ofZ 2024;
     Reports.requests := []; Reports.downloads := [] |}.

(** A report record with the given employee and counts, the other
    properties missing. *)
Definition attendanceOf (emp : option Employee.t) (p a l t : option number)
  : Reports.ReportRecord :=
  {| Reports.employee := emp; Reports.present := p; Reports.absent := a;
     Reports.late := l; Reports.total := t; Reports.approved := None;
     Reports.pending := None; Reports.rejected := None;
     Reports.department := None; Reports.positions := None |}.

(** A record that carries nothing but a total. *)
Definition onlyTotal (t : Z) : Reports.ReportRecord :=
  attendanceOf None None None None (Some (ofZ t)).

(** An employee whose e-mail address holds the cell delimiter. *)
Definition delimiterInEmail : Employee.t :=
  {| Employee.firstName := Some "Ann"; Employee.lastName := Some "Lee";
     Employee.email :=
       Some ("a" ++ String dquote ("," ++ String dquote "b"));
     Employee.department := Some {| Department.name := Some "R&D" |} |}.

(** An employee whose first name holds a line break. *)
Definition twoLineName : Employee.t :=
  {| Employee.firstName := Some ("Ann" ++ String newline "Marie");
     Employee.lastName := Some "Lee";
     Employee.email := Some "ann@ems.io";
     Employee.department := None |}.

(** An employee whose names hold a comma and double quotes, but no
    double quote right before a comma. *)
Definition quotedNickname : Employee.t :=
  {| Employee.firstName :=
       Some ("Ann " ++ String dquote ("Ace" ++ String dquote EmptyString));
     Employee.lastName := Some "Lee, Jr";
     Employee.email := Some "ann@ems.io";
     Employee.department := Some {| Department.name := Some "R&D" |} |}.

End Sample.

(* ===================================================================== *)
(** * Properties of the leave list *)
(* ===================================================================== *)

Import Js.

(** Unfolding of the statement combinators. *)
Ltac run_js :=
  cbv [call bind ret throw returnNow modify get await tryCatch tryFinally].

Section LeaveListFacts.
Import LeaveList.

Lemma strOr_truthy (a : option string) (b : string) :
  JsString.truthy b = true -> JsString.truthy (strOr a b) = true.
Proof.
  intros Hb. destruct a as [s|]; simpl; auto.
  destruct (JsString.truthy s) eqn:E; auto.
Qed.

(** Whatever the request comes back with, the call of [fetchLeaves]
    completes normally. *)
Lemma fetchLeaves_completes (r : reply LeavesData.t) (s : State) :
  fst (fetchLeaves r s) = Normal tt.
Proof.
  unfold fetchLeaves, fetchLeavesBody, apiGetLeaves, setLoading, setError,
    setDataIssues, setLeaves, send.
  run_js.
  destruct r as [d|e]; simpl; auto.
  destruct (LeavesData.success d); simpl; auto.
  destruct (LeavesData.leaves d); simpl; auto.
  destruct (0 <? _); reflexivity.
Qed.

(** The state after a list request that succeeds with a collection. *)
Lemma fetchLeaves_success (received : list Leave.t) (s : State) :
  fetchLeaves (Resolved {| LeavesData.success := true;
                 LeavesData.leaves := Some received |}) s
  = (Normal tt,
     {| leaves := received; loading := false; error := None;
        success := success s; status := status s;
        search := search s;
        dataIssues := filter noEmployee received;
        requests := requests s
                    ++ [GetLeaves (if String.eqb (status s) "all" then None
                                   else Some (status s))];
        timers := timers s |}).
Proof.
  unfold fetchLeaves, fetchLeavesBody, apiGetLeaves, setLoading, setError,
    setDataIssues, setLeaves, send.
  run_js. simpl.
  destruct (filter noEmployee received) eqn:E; reflexivity.
Qed.

Lemma shown_valid (q : string) (leave : Leave.t) :
  shown q leave = true -> Spec.valid leave = true.
Proof.
  unfold shown, Spec.valid.
  destruct (Leave.employee leave) as [emp|]; [|discriminate].
  destruct (truthyStr (Employee.firstName emp)); simpl; [|discriminate].
  destruct (truthyStr (Leave.type leave)); simpl; [|discriminate].
  destruct (truthyStr (Leave.reason leave)); simpl; [|discriminate].
  reflexivity.
Qed.

End LeaveListFacts.

Section LeaveListClaims.
Import LeaveList.

(** C1, as stated, fails: a fetched collection holding a leave with an
    employee but no type has a non-empty invalid subset, yet that leave
    is not in the data-integrity warning and the warning is not shown. *)
Lemma C1_untyped_leave_not_reported :
  let received := [Sample.sickLeave; Sample.untypedLeave] in
  let s := Sample.listed "" received in
  In Sample.untypedLeave received
  /\ Spec.valid Sample.untypedLeave = false
  /\ ~ In Sample.untypedLeave (dataIssues s)
  /\ warningShown s = false.
Proof.
  cbv zeta. repeat split.
  - right; left; reflexivity.
  - intros H. vm_compute in H. exact H.
Qed.

(** C1, amended: after a successful fetch the data-integrity warning
    enumerates exactly the received leaves whose employee reference is
    null, in the order received; it is shown iff there is such a leave;
    and the display sequence holds only received leaves that are valid
    under the invariant of section 3, hence none of the enumerated ones. *)
Theorem C1_warning_lists_orphans (received : list Leave.t) (s : State) :
  let s' := snd (fetchLeaves
                   (Resolved {| LeavesData.success := true;
                                LeavesData.leaves := Some received |}) s) in
  dataIssues s' = filter noEmployee received
  /\ (forall leave, In leave (dataIssues s')
                    <-> In leave received /\ Leave.employee leave = None)
  /\ (warningShown s' = true
      <-> exists leave, In leave received /\ Leave.employee leave = None)
  /\ (forall leave, In leave (filteredLeaves s')
                    -> In leave received /\ Spec.valid leave = true)
  /\ (forall leave, In leave (dataIssues s')
                    -> ~ In leave (filteredLeaves s')).
Proof.
  cbv zeta. rewrite fetchLeaves_success. simpl.
  assert (Hmem : forall leave,
             In leave (filter noEmployee received)
             <-> In leave received /\ Leave.employee leave = None).
  { intros leave. rewrite filter_In. unfold noEmployee.
    destruct (Leave.employee leave); intuition congruence. }
  split; [reflexivity|].
  split; [exact Hmem|].
  split.
  - unfold warningShown. simpl. rewrite Z.ltb_lt.
    destruct (filter noEmployee received) as [|l0 rest] eqn:E.
    + simpl. split; [lia|].
      intros [leave Hl]. apply Hmem in Hl. destruct Hl.
    + split; [|simpl; lia].
      intros _. exists l0. apply Hmem. left; reflexivity.
  - split.
    + intros leave Hin. unfold filteredLeaves in Hin. simpl in Hin.
      apply filter_In in Hin. destruct Hin as [Hin Hs].
      split; [exact Hin|]. exact (shown_valid _ _ Hs).
    + intros leave Hi Hd. apply Hmem in Hi. destruct Hi as [_ Hnone].
      unfold filteredLeaves in Hd. simpl in Hd.
      apply filter_In in Hd. destruct Hd as [_ Hs].
      unfold shown in Hs. rewrite Hnone in Hs. discriminate.
Qed.

(** C3, as stated, fails: once a collection has been fetched, a failed
    fetch sets the error but the display sequence is not empty. *)
Lemma C3_failed_fetch_after_listing :
  let fail := Rejected (Sample.networkError "ERR_NETWORK") in
  let s' := snd (fetchLeaves fail (Sample.listed "" [Sample.sickLeave])) in
  Spec.fetchFailed fail = true
  /\ errorShown s' = true
  /\ filteredLeaves s' = [Sample.sickLeave].
Proof.
  cbv zeta. repeat split.
Qed.

(** C3, amended: a failed fetch (thrown error, or response with
    [success] false) completes normally, leaves an error message that is
    shown, and leaves the fetched collection, the display sequence and
    the warning as they were before; the display sequence is empty when
    no collection had been fetched. *)
Theorem C3_failed_fetch_keeps_listing (r : reply LeavesData.t) (s : State) :
  Spec.fetchFailed r = true ->
  let out := fetchLeaves r s in
  fst out = Normal tt
  /\ errorShown (snd out) = true
  /\ leaves (snd out) = leaves s
  /\ filteredLeaves (snd out) = filteredLeaves s
  /\ dataIssues (snd out) = dataIssues s
  /\ loading (snd out) = false
  /\ (leaves s = [] -> filteredLeaves (snd out) = []).
Proof.
  intros Hfail. cbv zeta.
  assert (Hstate : errorShown (snd (fetchLeaves r s)) = true
                   /\ leaves (snd (fetchLeaves r s)) = leaves s
                   /\ search (snd (fetchLeaves r s)) = search s
                   /\ dataIssues (snd (fetchLeaves r s)) = dataIssues s
                   /\ loading (snd (fetchLeaves r s)) = false).
  { unfold fetchLeaves, fetchLeavesBody, apiGetLeaves, setLoading, setError,
      setDataIssues, setLeaves, send.
    run_js.
    destruct r as [d|e]; simpl in *.
    - destruct (LeavesData.success d); [discriminate|]. simpl. repeat split.
    - repeat split. unfold errorShown. simpl.
      apply strOr_truthy. reflexivity. }
  destruct Hstate as (He & Hl & Hq & Hd & Hld).
  assert (Hf : filteredLeaves (snd (fetchLeaves r s)) = filteredLeaves s).
  { unfold filteredLeaves. rewrite Hl, Hq. reflexivity. }
  repeat split; auto using fetchLeaves_completes.
  intros Hnil. rewrite Hf. unfold filteredLeaves. rewrite Hnil. reflexivity.
Qed.

(** A rejected first fetch: the error is shown and the display sequence
    is empty. *)
Lemma C3_failed_fetch_keeps_listing_witness :
  let r := Rejected (Sample.httpError 503 None) in
  let s := Sample.mounted "doe" in
  Spec.fetchFailed r = true
  /\ errorShown (snd (fetchLeaves r s)) = true
  /\ filteredLeaves (snd (fetchLeaves r s)) = [].
Proof.
  cbv zeta. split; [reflexivity|].
  pose proof (C3_failed_fetch_keeps_listing
                (Rejected (Sample.httpError 503 None))
                (Sample.mounted "doe") eq_refl) as H.
  cbv zeta in H.
  destruct H as (_ & He & _ & _ & _ & _ & Hempty).
  split; [exact He|]. apply Hempty. reflexivity.
Defined.

End LeaveListClaims.

Section StringFacts.

Lemma toLowerCase_app (a b : string) :
  JsString.toLowerCase (a ++ b)
  = JsString.toLowerCase a ++ JsString.toLowerCase b.
Proof.
  induction a as [|c a IH]; simpl; [reflexivity|]. now rewrite IH.
Qed.

Lemma startsWith_app (p r : string) : JsString.startsWith (p ++ r) p = true.
Proof.
  induction p as [|c p IH]; simpl; [reflexivity|].
  rewrite Ascii.eqb_refl. exact IH.
Qed.

Lemma includes_app_r (a b p : string) :
  JsString.includes b p = true -> JsString.includes (a ++ b) p = true.
Proof.
  intros H. induction a as [|c a IH]; simpl; [exact H|].
  rewrite IH. apply orb_true_r.
Qed.

Lemma includes_prefix (p r : string) : JsString.includes (p ++ r) p = true.
Proof.
  destruct p as [|c p]; [destruct r; reflexivity|].
  change (JsString.includes (String c p ++ r) (String c p))
    with (JsString.startsWith (String c p ++ r) (String c p)
          || JsString.includes (p ++ r) (String c p)).
  now rewrite startsWith_app.
Qed.

Lemma strOr_empty (a : string) : strOr (Some a) "" = a.
Proof. destruct a; reflexivity. Qed.

End StringFacts.

Section SearchClaims.
Import LeaveList.

(** C7, as stated, fails in both directions.  The search text "hnd" is
    a substring of the lowercased concatenation of the five fields of
    John Doe's leave, yet the leave is not displayed; the search text
    "john doe" is not a substring of that concatenation, yet the leave is
    displayed. *)
Lemma C7_plain_concatenation_differs :
  let fields := "John" ++ "Doe" ++ "jd@ems.io" ++ "sick" ++ "flu" in
  let hidden := Sample.listed "hnd" [Sample.sickLeave] in
  let found := Sample.listed "john doe" [Sample.sickLeave] in
  Spec.valid Sample.sickLeave = true
  /\ JsString.includes (JsString.toLowerCase fields)
                        (JsString.toLowerCase (search hidden)) = true
  /\ ~ In Sample.sickLeave (filteredLeaves hidden)
  /\ JsString.includes (JsString.toLowerCase fields)
                        (JsString.toLowerCase (search found)) = false
  /\ In Sample.sickLeave (filteredLeaves found).
Proof.
  cbv zeta. repeat split.
  - intros H. vm_compute in H. exact H.
  - left; reflexivity.
Qed.

(** C7, amended: a valid leave of the fetched collection is displayed
    iff the lowercased search text is a substring of the lowercased
    five fields joined by single spaces (first name, last name, e-mail,
    type, reason; a missing last name or e-mail counts as empty).  In
    particular a search text that lowercases to "doe" finds every valid
    leave whose employee's last name lowercases to "doe". *)
Theorem C7_search_matches_joined_fields
  (s : State) (leave : Leave.t) (emp : Employee.t) :
  In leave (leaves s) ->
  Spec.valid leave = true ->
  Leave.employee leave = Some emp ->
  (In leave (filteredLeaves s)
   <-> JsString.includes
         (JsString.toLowerCase
            (JsString.join " "
               [strOr (Employee.firstName emp) "";
                strOr (Employee.lastName emp) "";
                strOr (Employee.email emp) "";
                strOr (Leave.type leave) "";
                strOr (Leave.reason leave) ""]))
         (JsString.toLowerCase (search s)) = true)
  /\ (forall last,
        Employee.lastName emp = Some last ->
        JsString.toLowerCase last = "doe" ->
        JsString.toLowerCase (search s) = "doe" ->
        In leave (filteredLeaves s)).
Proof.
  intros Hin Hvalid Hemp.
  assert (Hshown : shown (search s) leave
                   = JsString.includes (searchStr leave emp)
                       (JsString.toLowerCase (search s))).
  { unfold Spec.valid in Hvalid. unfold shown. rewrite Hemp in *.
    apply andb_prop in Hvalid. destruct Hvalid as [Hvalid Hr].
    apply andb_prop in Hvalid. destruct Hvalid as [Hf Ht].
    rewrite Hf, Ht, Hr. reflexivity. }
  assert (Hiff : In leave (filteredLeaves s)
                 <-> JsString.includes (searchStr leave emp)
                       (JsString.toLowerCase (search s)) = true).
  { unfold filteredLeaves. rewrite filter_In, Hshown. tauto. }
  split; [exact Hiff|].
  intros last Hlast Hlow Hq. apply Hiff.
  unfold searchStr. rewrite Hq, Hlast, strOr_empty.
  unfold JsString.join. simpl String.concat.
  match goal with
  | |- context [String " " (last ++ ?rest)] =>
      change (String " " (last ++ rest)) with (" " ++ (last ++ rest))
  end.
  rewrite toLowerCase_app. apply includes_app_r.
  rewrite toLowerCase_app. apply includes_app_r.
  rewrite toLowerCase_app, Hlow. apply includes_prefix.
Qed.

(** John Doe's leave is found by "DOE", and by "n d" across the space
    between the names. *)
Lemma C7_search_matches_joined_fields_witness :
  In Sample.sickLeave (filteredLeaves (Sample.listed "DOE" [Sample.sickLeave]))
  /\ In Sample.sickLeave
       (filteredLeaves (Sample.listed "n d" [Sample.sickLeave])).
Proof.
  split.
  - refine (proj2 (C7_search_matches_joined_fields
                     (Sample.listed "DOE" [Sample.sickLeave])
                     Sample.sickLeave Sample.johnDoe
                     (or_introl eq_refl) eq_refl eq_refl)
                  "Doe" eq_refl eq_refl eq_refl).
  - apply (proj1 (C7_search_matches_joined_fields
                    (Sample.listed "n d" [Sample.sickLeave])
                    Sample.sickLeave Sample.johnDoe
                    (or_introl eq_refl) eq_refl eq_refl)).
    reflexivity.
Defined.

End SearchClaims.

Section CleanupClaims.
Import LeaveList.

(** C8: the code fails the claim when the service answers the cleanup
    request with [success] false: the call completes without setting
    any error, whatever the state and the reported count; the warning
    and the notice stay as they were, nothing is fetched again and no
    timer is set. *)
Theorem C8_refused_cleanup_sets_no_error (c : option JsNumber.number) (s : State) :
  let out := handleCleanup
               (Resolved {| CleanupData.success := false;
                            CleanupData.deletedCount := c |}) s in
  fst out = Normal tt
  /\ error (snd out) = error s
  /\ errorShown (snd out) = errorShown s
  /\ dataIssues (snd out) = dataIssues s
  /\ success (snd out) = success s
  /\ requests (snd out) = (requests s ++ [DeleteCleanup])%list
  /\ timers (snd out) = timers s.
Proof.
  cbv zeta. repeat split.
Qed.

(** A cleanup that succeeds clears the warning, records the count in
    the success notice, sends the list request again and sets the timer
    that clears the notice after 5000 ms. *)
Lemma handleCleanup_success (c : option JsNumber.number) (s : State) :
  let out := handleCleanup
               (Resolved {| CleanupData.success := true;
                            CleanupData.deletedCount := c |}) s in
  fst out = Normal tt
  /\ dataIssues (snd out) = []
  /\ warningShown (snd out) = false
  /\ success (snd out)
     = Some ("Cleaned up " ++ countText c ++ " orphaned leave records")
  /\ requests (snd out)
     = ((requests s ++ [DeleteCleanup])
        ++ [GetLeaves (if String.eqb (status s) "all" then None
                       else Some (status s))])%list
  /\ timers (snd out) = (timers s ++ [(5000, ClearSuccess)])%list
  /\ leaves (snd out) = leaves s.
Proof.
  cbv zeta. repeat split.
Qed.

(** The timer's callback clears the notice. *)
Lemma fire_ClearSuccess (s : State) :
  success (snd (fire ClearSuccess s)) = None.
Proof. reflexivity. Qed.

(** A cleanup request that is rejected sets an error that is shown and
    leaves the warning as it was. *)
Lemma handleCleanup_rejected (e : Error) (s : State) :
  let out := handleCleanup (Rejected e) s in
  fst out = Normal tt
  /\ errorShown (snd out) = true
  /\ dataIssues (snd out) = dataIssues s
  /\ leaves (snd out) = leaves s.
Proof.
  cbv zeta. repeat split.
  unfold errorShown. simpl. apply strOr_truthy. reflexivity.
Qed.

End CleanupClaims.

(* ===================================================================== *)
(** * Properties of report generation *)
(* ===================================================================== *)

Section NumberFacts.
Import JsNumber.

(** Texts made of decimal digits. *)
Lemma allDigits_app (a b : string) :
  Spec.allDigits (a ++ b) = Spec.allDigits a && Spec.allDigits b.
Proof.
  induction a as [|c a IH]; simpl; [reflexivity|].
  now rewrite IH, andb_assoc.
Qed.

Lemma allDigits_uint (d : Decimal.uint) :
  Spec.allDigits (NilEmpty.string_of_uint d) = true.
Proof. induction d; simpl; auto. Qed.

Lemma allDigits_digits (n : Z) : Spec.allDigits (digits n) = true.
Proof. apply allDigits_uint. Qed.

(** The decimal digits of an integer are at least one digit. *)
Lemma digits_nonempty (n : Z) : (1 <= String.length (digits n))%nat.
Proof.
  unfold digits. destruct (Z.to_N n) as [|p]; [simpl; lia|].
  simpl N.to_uint. pose proof (Unsigned.to_uint_nonnil p) as H.
  destruct (Pos.to_uint p); [congruence | simpl; lia ..].
Qed.

Lemma allDigits_zeros (n : nat) : Spec.allDigits (JsString.zeros n) = true.
Proof. induction n; simpl; auto. Qed.

Lemma length_zeros (n : nat) : String.length (JsString.zeros n) = n.
Proof. induction n; simpl; auto. Qed.

Lemma length_append (a b : string) :
  String.length (a ++ b) = (String.length a + String.length b)%nat.
Proof. induction a as [|c a IH]; simpl; auto. Qed.

Lemma allDigits_take (n : nat) : forall s,
  Spec.allDigits s = true -> Spec.allDigits (JsString.take n s) = true.
Proof.
  induction n as [|n IH]; intros [|c s] H; simpl in *; auto.
  apply andb_prop in H. destruct H as [Hc Hs]. now rewrite Hc, IH.
Qed.

Lemma allDigits_drop (n : nat) : forall s,
  Spec.allDigits s = true -> Spec.allDigits (JsString.drop n s) = true.
Proof.
  induction n as [|n IH]; intros [|c s] H; simpl in *; auto.
  apply andb_prop in H. destruct H as [_ Hs]. now apply IH.
Qed.

Lemma length_take (n : nat) : forall s,
  (n <= String.length s)%nat -> String.length (JsString.take n s) = n.
Proof.
  induction n as [|n IH]; intros [|c s] H; simpl in *; auto; try lia.
  rewrite IH; lia.
Qed.

Lemma length_drop (n : nat) : forall s,
  String.length (JsString.drop n s) = (String.length s - n)%nat.
Proof.
  induction n as [|n IH]; intros [|c s]; simpl; auto.
Qed.

(** One or more digits, a point and two digits are recognised. *)
Lemma wholeThenFraction_intro (w f : string) :
  Spec.allDigits w = true -> (1 <= String.length w)%nat ->
  Spec.allDigits f = true -> String.length f = 2%nat ->
  Spec.wholeThenFraction (w ++ "." ++ f) = true.
Proof.
  intros Hw Hlen Hf Hf2.
  assert (Hfrac : Spec.isFraction ("." ++ f) = true).
  { destruct f as [|a [|b [|c f]]]; try discriminate.
    simpl in Hf. apply andb_prop in Hf. destruct Hf as [Ha Hb].
    rewrite andb_true_r in Hb. simpl. now rewrite Ha, Hb. }
  induction w as [|c w IH]; [simpl in Hlen; lia|].
  simpl in Hw. apply andb_prop in Hw. destruct Hw as [Hc Hw].
  change (String c w ++ "." ++ f) with (String c (w ++ "." ++ f)).
  cbn [Spec.wholeThenFraction]. rewrite Hc.
  destruct w as [|c2 w].
  - change ("" ++ "." ++ f) with ("." ++ f). rewrite Hfrac. apply orb_true_r.
  - rewrite IH; [reflexivity | exact Hw | simpl; lia].
Qed.

Lemma digit_not_minus (c : ascii) : Spec.isDigit c = true -> Ascii.eqb c "-" = false.
Proof.
  intros H. destruct (Ascii.eqb_spec c "-") as [->|]; [discriminate H|reflexivity].
Qed.

(** The hundredths [n] are written as a whole part and two decimals. *)
Lemma fixedDigits_two_decimals (n : Z) :
  exists w f, fixedDigits 2 n = w ++ "." ++ f
              /\ Spec.allDigits w = true /\ (1 <= String.length w)%nat
              /\ Spec.allDigits f = true /\ String.length f = 2%nat.
Proof.
  unfold fixedDigits.
  set (ds := JsString.zeros (3 - String.length (digits n)) ++ digits n).
  assert (Hall : Spec.allDigits ds = true).
  { unfold ds. now rewrite allDigits_app, allDigits_zeros, allDigits_digits. }
  assert (Hlen : (3 <= String.length ds)%nat).
  { unfold ds. rewrite length_append, length_zeros.
    pose proof (digits_nonempty n). lia. }
  exists (JsString.take (String.length ds - 2) ds),
         (JsString.drop (String.length ds - 2) ds).
  split; [reflexivity|].
  split; [now apply allDigits_take|].
  split; [rewrite length_take; lia|].
  split; [now apply allDigits_drop|].
  rewrite length_drop. lia.
Qed.

Lemma twoDecimals_fixedDigits (n : Z) :
  Spec.twoDecimals (fixedDigits 2 n) = true
  /\ Spec.twoDecimals ("-" ++ fixedDigits 2 n) = true.
Proof.
  destruct (fixedDigits_two_decimals n) as (w & f & -> & Hw & Hlen & Hf & Hf2).
  pose proof (wholeThenFraction_intro w f Hw Hlen Hf Hf2) as H.
  split; [|exact H].
  destruct w as [|c w]; [simpl in Hlen; lia|].
  change (String c w ++ "." ++ f) with (String c (w ++ "." ++ f)) in *.
  unfold Spec.twoDecimals. simpl in Hw. apply andb_prop in Hw.
  rewrite (digit_not_minus c (proj1 Hw)). exact H.
Qed.

(** In the range of the fixed notation [toFixed(2)] writes exactly two
    decimals. *)
Lemma toFixed_two_decimals (x : number) :
  fixedRange x = true -> Spec.twoDecimals (toFixed x 2) = true.
Proof.
  destruct x as [s|s| |s m e]; try discriminate; intros H.
  - apply (twoDecimals_fixedDigits 0).
  - cbn [fixedRange] in H. cbn [toFixed].
    rewrite Z.leb_antisym, H. cbn [negb].
    destruct s; apply twoDecimals_fixedDigits.
Qed.

(** The model of the run time agrees with what JavaScript prints. *)
Example toString_samples :
  let q := fun a b => div (ofZ a) (ofZ b) in
  map toString
      [ofZ 0; S754_zero true; NaN; q 1 0; q (-1) 0; ofZ 75; ofZ 2024;
       q 1 10; q 1 3; q 2 3; ofZ (10 ^ 21); ofZ 123456789012345680000;
       q 1 10000000; q 1 1000000; S754_finite false 1 (-1074);
       S754_finite false (2 ^ 53 - 1) 971; q 5 2; ofZ (2 ^ 53); q (-7) 4]
  = ["0"; "0"; "NaN"; "Infinity"; "-Infinity"; "75"; "2024";
     "0.1"; "0.3333333333333333"; "0.6666666666666666"; "1e+21";
     "123456789012345680000"; "1e-7"; "0.000001"; "5e-324";
     "1.7976931348623157e+308"; "2.5"; "9007199254740992"; "-1.75"].
Proof. vm_compute. reflexivity. Qed.

Example toFixed_samples :
  let q := fun a b => div (ofZ a) (ofZ b) in
  map (fun x => toFixed x 2)
      [ofZ 75; q 1005 1000; q 1255 1000; q (-1) 1000; ofZ (10 ^ 21); ofZ 0;
       q 100 3; q 123456 1000; NaN; q 1 0]
  = ["75.00"; "1.00"; "1.25"; "-0.00"; "1e+21"; "0.00";
     "33.33"; "123.46"; "NaN"; "Infinity"]
  /\ map (fun x => toFixed x 0) [q 5 2; q (-5) 2; q 1 2] = ["3"; "-3"; "1"].
Proof. split; vm_compute; reflexivity. Qed.

End NumberFacts.

Section ReportHandlerClaims.
Import Reports.

(** Unfolding of [handleGenerateReport] down to the state updates. *)
Ltac run_report :=
  unfold handleGenerateReport, reportFailure, setLoading, setError, apiGet,
    download;
  run_js.

(** The cases of a failure with one of the four statuses. *)
Ltac by_status :=
  cbn; repeat split; try discriminate; intros; intuition congruence.

(** The cases of a failure with another status or none. *)
Ltac by_payload :=
  cbn; repeat split; try congruence;
  try (unfold errorShown; cbn; apply strOr_truthy; reflexivity);
  try (intros _ _ m Hm Hne; rewrite Hm; destruct m;
       [congruence | reflexivity]);
  try (intros _ _ [Hm | Hm]; rewrite Hm; reflexivity).

(** C6: when the service answers with [success] true and the report is
    missing or empty, the call completes normally with the error set to
    the no-data message that names the kind, the month and the year; the
    message is shown, nothing is downloaded and [loading] is false. *)
Theorem C6_empty_report_is_no_data_error
  (type : string) (resp : ReportResponse) (s : State) :
  success resp = true ->
  report resp = None \/ report resp = Some [] ->
  let out := handleGenerateReport type (Resolved resp) s in
  fst out = Normal tt
  /\ error (snd out)
     = Some ("No data available for " ++ type ++ " report in "
             ++ JsNumber.toString (selectedMonth s) ++ "/"
             ++ JsNumber.toString (selectedYear s))
  /\ errorShown (snd out) = true
  /\ downloads (snd out) = downloads s
  /\ loading (snd out) = false.
Proof.
  intros Hok Hempty. cbv zeta.
  assert (Hno : noReport (report resp) = true)
    by (destruct Hempty as [-> | ->]; reflexivity).
  run_report.
  destruct (String.eqb type "department"); cbn [fst snd];
    rewrite Hok, Hno; cbn [fst snd error downloads loading];
    repeat split.
Qed.

(** An empty leave report in March 2024. *)
Lemma C6_empty_report_is_no_data_error_witness :
  let out := handleGenerateReport "leave"
               (Resolved {| success := true; report := Some [] |})
               Sample.reportsPage in
  error (snd out) = Some "No data available for leave report in 3/2024"
  /\ downloads (snd out) = [].
Proof.
  cbv zeta.
  destruct (C6_empty_report_is_no_data_error "leave"
              {| success := true; report := Some [] |} Sample.reportsPage
              eq_refl (or_intror eq_refl))
    as (_ & He & _ & Hd & _).
  split; [exact He | exact Hd].
Defined.

(** C10: when the service answers with [success] true and a non-empty
    report for a kind other than attendance, leave and department, the
    call sets the error to "Invalid report type", returns, and nothing
    is downloaded. *)
Theorem C10_unknown_kind_is_invalid
  (type : string) (resp : ReportResponse)
  (record : ReportRecord) (others : list ReportRecord) (s : State) :
  type <> "attendance" ->
  type <> "leave" ->
  type <> "department" ->
  success resp = true ->
  report resp = Some (record :: others) ->
  let out := handleGenerateReport type (Resolved resp) s in
  fst out = Normal tt
  /\ error (snd out) = Some "Invalid report type"
  /\ errorShown (snd out) = true
  /\ downloads (snd out) = downloads s
  /\ loading (snd out) = false.
Proof.
  intros Ha Hl Hd Hok Hrep. cbv zeta.
  apply String.eqb_neq in Ha, Hl, Hd.
  run_report.
  rewrite Hd, Hok, Hrep, Ha, Hl. cbn. repeat split.
Qed.

(** A payroll report is no report kind. *)
Lemma C10_unknown_kind_is_invalid_witness :
  let out := handleGenerateReport "payroll"
               (Resolved {| success := true;
                            report := Some [Sample.onlyTotal 4] |})
               Sample.reportsPage in
  error (snd out) = Some "Invalid report type"
  /\ downloads (snd out) = [].
Proof.
  cbv zeta.
  destruct (C10_unknown_kind_is_invalid "payroll"
              {| success := true; report := Some [Sample.onlyTotal 4] |}
              (Sample.onlyTotal 4) [] Sample.reportsPage)
    as (_ & He & _ & Hd & _);
    try reflexivity; try discriminate.
  split; [exact He | exact Hd].
Defined.

(** C9: when the request is rejected, the call completes normally,
    nothing is downloaded, and the error message follows the failure:
    status 401, 403, 404 and 500 each have their message; otherwise the
    code [ECONNREFUSED] has its own; otherwise the message of the error
    payload is used when it is present and not empty, and the generic
    message when it is not. *)
Theorem C9_failure_messages (type : string) (err : Error) (s : State) :
  let out := handleGenerateReport type (Rejected err) s in
  let other := errStatus err <> Some 401 /\ errStatus err <> Some 403
               /\ errStatus err <> Some 404 /\ errStatus err <> Some 500 in
  fst out = Normal tt
  /\ downloads (snd out) = downloads s
  /\ errorShown (snd out) = true
  /\ (errStatus err = Some 401 ->
      error (snd out) = Some "Authentication failed. Please login again.")
  /\ (errStatus err = Some 403 ->
      error (snd out)
      = Some "Access denied. You don't have permission to generate reports.")
  /\ (errStatus err = Some 404 ->
      error (snd out)
      = Some "Report endpoint not found. Please check the server configuration.")
  /\ (errStatus err = Some 500 ->
      error (snd out) = Some "Server error. Please try again later.")
  /\ (other -> code err = Some "ECONNREFUSED" ->
      error (snd out)
      = Some "Cannot connect to server. Please check if the backend is running.")
  /\ (other -> code err <> Some "ECONNREFUSED" ->
      forall m, errMessage err = Some m -> m <> "" ->
                error (snd out) = Some m)
  /\ (other -> code err <> Some "ECONNREFUSED" ->
      errMessage err = None \/ errMessage err = Some "" ->
      error (snd out) = Some "Failed to generate report. Please try again.").
Proof.
  cbv zeta. run_report.
  destruct (String.eqb type "department"); cbn [fst snd];
    (destruct (errStatus err) as [c|] eqn:Hs;
     [ destruct (Z.eqb_spec c 401) as [->|N1]; [by_status|];
       destruct (Z.eqb_spec c 403) as [->|N2]; [by_status|];
       destruct (Z.eqb_spec c 404) as [->|N3]; [by_status|];
       destruct (Z.eqb_spec c 500) as [->|N4]; [by_status|]
     | ];
     (destruct (code err) as [k|] eqn:Hc;
      [ destruct (String.eqb_spec k "ECONNREFUSED") as [->|Nk] | ];
      by_payload)).
Qed.

(** One failure of each sort. *)
Lemma C9_failure_messages_witness :
  let run := fun err =>
    error (snd (handleGenerateReport "attendance" (Rejected err)
                  Sample.reportsPage)) in
  run (Sample.httpError 401 (Some "jwt expired"))
  = Some "Authentication failed. Please login again."
  /\ run (Sample.httpError 403 None)
     = Some "Access denied. You don't have permission to generate reports."
  /\ run (Sample.httpError 404 None)
     = Some "Report endpoint not found. Please check the server configuration."
  /\ run (Sample.httpError 500 None)
     = Some "Server error. Please try again later."
  /\ run (Sample.networkError "ECONNREFUSED")
     = Some "Cannot connect to server. Please check if the backend is running."
  /\ run (Sample.httpError 502 (Some "Bad gateway")) = Some "Bad gateway"
  /\ run (Sample.networkError "ETIMEDOUT")
     = Some "Failed to generate report. Please try again.".
Proof.
  cbv zeta.
  pose proof (fun err =>
                C9_failure_messages "attendance" err Sample.reportsPage) as H.
  cbv zeta in H.
  split.
  { destruct (H (Sample.httpError 401 (Some "jwt expired")))
      as (_ & _ & _ & H401 & _).
    apply H401. reflexivity. }
  split.
  { destruct (H (Sample.httpError 403 None)) as (_ & _ & _ & _ & H403 & _).
    apply H403. reflexivity. }
  split.
  { destruct (H (Sample.httpError 404 None))
      as (_ & _ & _ & _ & _ & H404 & _).
    apply H404. reflexivity. }
  split.
  { destruct (H (Sample.httpError 500 None))
      as (_ & _ & _ & _ & _ & _ & H500 & _).
    apply H500. reflexivity. }
  split.
  { destruct (H (Sample.networkError "ECONNREFUSED"))
      as (_ & _ & _ & _ & _ & _ & _ & Hc & _).
    apply Hc; [repeat split; discriminate | reflexivity]. }
  split.
  { destruct (H (Sample.httpError 502 (Some "Bad gateway")))
      as (_ & _ & _ & _ & _ & _ & _ & _ & Hm & _).
    apply Hm; [repeat split; discriminate | discriminate | reflexivity
              | discriminate]. }
  destruct (H (Sample.networkError "ETIMEDOUT"))
    as (_ & _ & _ & _ & _ & _ & _ & _ & _ & Hg).
  apply Hg; [repeat split; discriminate | discriminate | left; reflexivity].
Defined.

(** A response with [success] false sets the fixed message "Failed to
    generate report"; nothing is downloaded. *)
Lemma unsuccessful_report_response
  (type : string) (records : option (list ReportRecord)) (s : State) :
  let out := handleGenerateReport type
               (Resolved {| success := false; report := records |}) s in
  fst out = Normal tt
  /\ error (snd out) = Some "Failed to generate report"
  /\ downloads (snd out) = downloads s
  /\ loading (snd out) = false.
Proof.
  cbv zeta. run_report.
  destruct (String.eqb type "department"); repeat split.
Qed.

(** A successful attendance report is downloaded under the name made of
    the year and the month. *)
Lemma attendance_report_download
  (record : ReportRecord) (others : list ReportRecord) (s : State) :
  let out := handleGenerateReport "attendance"
               (Resolved {| success := true;
                            report := Some (record :: others) |}) s in
  fst out = Normal tt
  /\ error (snd out) = None
  /\ downloads (snd out)
     = (downloads s
        ++ [{| filename := "attendance_report_"
                           ++ JsNumber.toString (selectedYear s) ++ "_"
                           ++ JsNumber.toString (selectedMonth s) ++ ".csv";
               content := generateAttendanceCSV (record :: others) |}])%list.
Proof.
  cbv zeta. repeat split.
Qed.

End ReportHandlerClaims.

Section RowClaims.
Import JsNumber Reports.

(** C4: the code fails the claim on an attendance record whose
    [present] is missing while its [total] is positive.  The missing
    references are written as N/A and the missing counts as 0, but the
    rate cell is "NaN%"; with [present] given as 0 it is "0.00%". *)
Theorem C4_missing_present_gives_NaN_rate :
  map ToString (attendanceRow (Sample.onlyTotal 4))
  = ["N/A N/A"; "N/A"; "N/A"; "0"; "0"; "0"; "4"; "NaN%"]
  /\ map ToString
       (attendanceRow
          (Sample.attendanceOf None (Some (ofZ 0)) None None (Some (ofZ 4))))
     = ["N/A N/A"; "N/A"; "N/A"; "0"; "0"; "0"; "4"; "0.00%"].
Proof.
  split; vm_compute; reflexivity.
Qed.

(** C5: the code fails the claim on every attendance record whose
    [present] is missing while its [total] is greater than zero: the
    rate cell is "NaN%", which is not a number with two decimals. *)
Theorem C5_rate_of_missing_present (record : ReportRecord) (t : number) :
  present record = None ->
  total record = Some t ->
  gt t (ofZ 0) = true ->
  nth 7 (map ToString (attendanceRow record)) "" = "NaN%".
Proof.
  intros Hp Ht Hpos. unfold attendanceRow, attendanceRate.
  rewrite Hp, Ht. cbn [ToNumber]. rewrite Hpos.
  destruct t; reflexivity.
Qed.

(** A record with a total of 30 days and no [present]. *)
Lemma C5_rate_of_missing_present_witness :
  nth 7 (map ToString (attendanceRow (Sample.onlyTotal 30))) "" = "NaN%".
Proof.
  apply (C5_rate_of_missing_present (Sample.onlyTotal 30) (ofZ 30));
    reflexivity.
Defined.

(** When [total] is not greater than zero (it is zero, or missing), the
    rate cell is "0.00%": no division takes place. *)
Lemma attendanceRate_no_total (record : ReportRecord) :
  gt (ToNumber (total record)) (ofZ 0) = false ->
  nth 7 (map ToString (attendanceRow record)) "" = "0.00%".
Proof.
  intros H. unfold attendanceRow, attendanceRate. rewrite H. reflexivity.
Qed.

Lemma attendanceRate_zero_total (record : ReportRecord) (sign : bool) :
  total record = Some (S754_zero sign) ->
  nth 7 (map ToString (attendanceRow record)) "" = "0.00%".
Proof.
  intros H. apply attendanceRate_no_total. rewrite H. reflexivity.
Qed.

Lemma attendanceRate_missing_total (record : ReportRecord) :
  total record = None ->
  nth 7 (map ToString (attendanceRow record)) "" = "0.00%".
Proof.
  intros H. apply attendanceRate_no_total. rewrite H. reflexivity.
Qed.

(** 3 days present out of 4 give "75.00%"; 1 out of 3, "33.33%"; 2 out
    of 3, "66.67%". *)
Lemma attendanceRate_samples :
  let rate := fun p t =>
    nth 7 (map ToString
             (attendanceRow
                (Sample.attendanceOf None (Some (ofZ p)) None None
                   (Some (ofZ t))))) "" in
  rate 3 4 = "75.00%" /\ rate 1 3 = "33.33%" /\ rate 2 3 = "66.67%"
  /\ rate 0 0 = "0.00%" /\ rate 22 22 = "100.00%".
Proof.
  cbv zeta. repeat split; vm_compute; reflexivity.
Qed.

(** A missing count is written as 0 in its own cell, a missing employee
    or department as N/A, in the three kinds of row. *)
Lemma missing_fields_defaults (record : ReportRecord) :
  (employee record = None ->
   forall k, k = Spec.Attendance \/ k = Spec.Leave ->
   firstn 3 (map ToString (Spec.row k record)) = ["N/A N/A"; "N/A"; "N/A"])
  /\ (present record = None ->
      nth 3 (map ToString (attendanceRow record)) "" = "0")
  /\ (absent record = None ->
      nth 4 (map ToString (attendanceRow record)) "" = "0")
  /\ (late record = None ->
      nth 5 (map ToString (attendanceRow record)) "" = "0")
  /\ (approved record = None ->
      nth 3 (map ToString (leaveRow record)) "" = "0")
  /\ (pending record = None ->
      nth 4 (map ToString (leaveRow record)) "" = "0")
  /\ (rejected record = None ->
      nth 5 (map ToString (leaveRow record)) "" = "0")
  /\ (total record = None ->
      nth 6 (map ToString (attendanceRow record)) "" = "0"
      /\ nth 6 (map ToString (leaveRow record)) "" = "0"
      /\ nth 1 (map ToString (departmentRow record)) "" = "0")
  /\ (department record = None ->
      nth 0 (map ToString (departmentRow record)) "" = "N/A")
  /\ (positions record = None ->
      nth 2 (map ToString (departmentRow record)) "" = "N/A").
Proof.
  repeat match goal with |- _ /\ _ => split end;
    intros H; try (intros k [-> | ->]);
    cbv [Spec.row attendanceRow leaveRow departmentRow employeeName
           employeeEmail employeeDepartment];
    rewrite H; repeat split.
Qed.

Lemma in_zrange (lo z : Z) (n : nat) :
  lo <= z < lo + Z.of_nat n -> In z (Spec.zrange lo n).
Proof.
  intros H. unfold Spec.zrange. apply in_map_iff.
  exists (Z.to_nat (z - lo)). split; [lia|].
  apply in_seq. lia.
Qed.

Lemma monthTable_holds : Spec.monthTable = true.
Proof. vm_compute. reflexivity. Qed.

(** For the counts of a month, [present] days out of [total], the rate
    cell is [present / total * 100] rounded to two decimals. *)
Lemma attendanceRate_month_counts (record : ReportRecord) (p t : Z) :
  0 <= p <= t -> 0 < t <= 31 ->
  present record = Some (ofZ p) ->
  total record = Some (ofZ t) ->
  Spec.rateCell record = Spec.percentOf p t.
Proof.
  intros Hp Ht Hpres Htot.
  pose proof monthTable_holds as H. unfold Spec.monthTable in H.
  rewrite forallb_forall in H.
  specialize (H t (in_zrange 1 t 31 ltac:(lia))).
  rewrite forallb_forall in H.
  specialize (H p (in_zrange 0 p (Z.to_nat t + 1) ltac:(lia))).
  apply andb_prop in H. destruct H as [Hgt Heq].
  apply String.eqb_eq in Heq.
  unfold Spec.rateCell, attendanceRow, attendanceRate. rewrite Hpres, Htot.
  cbn [ToNumber map nth ToString]. rewrite Hgt. exact Heq.
Qed.

(** Whenever a rate is computed from numbers and lies in the range of the
    fixed notation, and whenever no rate is computed, the rate cell is
    written with exactly two decimals before the percent sign. *)
Lemma attendanceRate_two_decimals (record : ReportRecord) :
  gt (ToNumber (total record)) (ofZ 0) = false
  \/ fixedRange (mul (div (ToNumber (present record))
                          (ToNumber (total record))) (ofZ 100)) = true ->
  Spec.twoDecimals (attendanceRate record) = true
  /\ Spec.rateCell record = attendanceRate record ++ "%".
Proof.
  intros H. split; [|reflexivity]. unfold attendanceRate.
  destruct (gt (ToNumber (total record)) (ofZ 0)).
  - destruct H as [H|H]; [discriminate|]. now apply toFixed_two_decimals.
  - reflexivity.
Qed.

End RowClaims.

(* ===================================================================== *)
(** * Reading a generated document back *)
(* ===================================================================== *)

Section SplitFacts.

Let nl : string := String newline EmptyString.
Let dq_comma : string := String dquote (String "," EmptyString).
Let delim : string := Spec.cellDelimiter.

Lemma append_assoc (a b c : string) : (a ++ b) ++ c = a ++ (b ++ c).
Proof. induction a as [|x a IH]; simpl; [reflexivity|]. now rewrite IH. Qed.

Lemma rev_cons_app (x : ascii) (cur : list ascii) (c : string) :
  (rev (x :: cur) ++ list_ascii_of_string c
   = rev cur ++ list_ascii_of_string (String x c))%list.
Proof. simpl. now rewrite <- app_assoc. Qed.

Lemma startsWith_cons (a b : ascii) (s p : string) :
  JsString.startsWith (String b s) (String a p)
  = Ascii.eqb a b && JsString.startsWith s p.
Proof. reflexivity. Qed.

Lemma includes_cons (x : ascii) (s p : string) :
  JsString.includes (String x s) p
  = JsString.startsWith (String x s) p || JsString.includes s p.
Proof. reflexivity. Qed.

Lemma append_nil_r (a : string) : a ++ "" = a.
Proof. induction a as [|x a IH]; simpl; [reflexivity|]. now rewrite IH. Qed.

(** Inside a piece with no double quote right before a comma, followed
    by something that does not begin with a comma, no delimiter
    begins. *)
Lemma no_delimiter_inside (x : ascii) (c tail : string) :
  JsString.includes (String x c) dq_comma = false ->
  JsString.startsWith tail "," = false ->
  JsString.startsWith (String x (c ++ tail)) delim = false.
Proof.
  intros H Htail. rewrite includes_cons in H.
  apply orb_false_elim in H. destruct H as [H _].
  unfold dq_comma in H. unfold delim, Spec.cellDelimiter.
  rewrite startsWith_cons in H |- *.
  destruct (Ascii.eqb dquote x); [|reflexivity].
  rewrite andb_true_l in H |- *.
  assert (Hgen : forall t, JsString.startsWith t "," = false ->
                 JsString.startsWith t (String "," (String dquote "")) = false).
  { intros [|t0 t] Ht; [reflexivity|].
    rewrite startsWith_cons in Ht |- *.
    destruct (Ascii.eqb "," t0); [discriminate Ht | reflexivity]. }
  apply Hgen. destruct c as [|y c]; [exact Htail|].
  change (String y c ++ tail) with (String y (c ++ tail)).
  rewrite startsWith_cons in H |- *.
  destruct (Ascii.eqb "," y); [discriminate H | reflexivity].
Qed.

Lemma includes_tail (x : ascii) (c p : string) :
  JsString.includes (String x c) p = false -> JsString.includes c p = false.
Proof.
  rewrite includes_cons. intros H. apply orb_false_elim in H. tauto.
Qed.

(** A piece with no double quote right before a comma ends at the next
    delimiter. *)
Lemma split_go_cell (c : string) : forall (cur : list ascii) (rest : string),
  JsString.includes c dq_comma = false ->
  JsString.split_go delim 0 cur (c ++ delim ++ rest)
  = string_of_list_ascii (rev cur ++ list_ascii_of_string c)
    :: JsString.split_go delim 0 [] rest.
Proof.
  induction c as [|x c IH]; intros cur rest H.
  - simpl. now rewrite app_nil_r.
  - rewrite <- rev_cons_app, <- (IH _ _ (includes_tail _ _ _ H)).
    change (String x c ++ delim ++ rest) with (String x (c ++ delim ++ rest)).
    cbn [JsString.split_go].
    now rewrite (no_delimiter_inside x c (delim ++ rest) H eq_refl).
Qed.

Lemma split_go_last_cell (c : string) : forall (cur : list ascii),
  JsString.includes c dq_comma = false ->
  JsString.split_go delim 0 cur c
  = [string_of_list_ascii (rev cur ++ list_ascii_of_string c)].
Proof.
  induction c as [|x c IH]; intros cur H.
  - simpl. now rewrite app_nil_r.
  - rewrite <- rev_cons_app, <- (IH _ (includes_tail _ _ _ H)).
    cbn [JsString.split_go].
    pose proof (no_delimiter_inside x c "" H eq_refl) as Hno.
    rewrite append_nil_r in Hno. now rewrite Hno.
Qed.

(** Splitting the joined cells gives the cells back. *)
Lemma split_join_cells (cells : list string) : forall (c : string),
  forallb (fun x => negb (JsString.includes x dq_comma)) (c :: cells) = true ->
  JsString.split (JsString.join delim (c :: cells)) delim = c :: cells.
Proof.
  unfold JsString.split, JsString.join.
  induction cells as [|c2 cells IH]; intros c H;
    cbn [forallb] in H; apply andb_prop in H; destruct H as [Hc Hrest];
    apply negb_true_iff in Hc.
  - cbn [String.concat]. rewrite (split_go_last_cell c [] Hc).
    simpl. now rewrite string_of_list_ascii_of_string.
  - change (String.concat delim (c :: c2 :: cells))
      with (c ++ delim ++ String.concat delim (c2 :: cells)).
    rewrite (split_go_cell c [] _ Hc), (IH c2 Hrest).
    simpl. now rewrite string_of_list_ascii_of_string.
Qed.

(** The same for lines and the line break. *)
Lemma no_newline_here (x : ascii) (l : string) :
  JsString.includes (String x l) nl = false ->
  JsString.startsWith (String x l) nl = false.
Proof.
  rewrite includes_cons. intros H. apply orb_false_elim in H. tauto.
Qed.

Lemma no_newline_before (x : ascii) (l tail : string) :
  JsString.includes (String x l) nl = false ->
  JsString.startsWith (String x (l ++ tail)) nl = false.
Proof.
  intros H. apply no_newline_here in H. unfold nl in *.
  rewrite startsWith_cons in H |- *. exact H.
Qed.

Lemma split_go_line (l : string) : forall (cur : list ascii) (rest : string),
  JsString.includes l nl = false ->
  JsString.split_go nl 0 cur (l ++ nl ++ rest)
  = string_of_list_ascii (rev cur ++ list_ascii_of_string l)
    :: JsString.split_go nl 0 [] rest.
Proof.
  induction l as [|x l IH]; intros cur rest H.
  - simpl. now rewrite app_nil_r.
  - rewrite <- rev_cons_app, <- (IH _ _ (includes_tail _ _ _ H)).
    change (String x l ++ nl ++ rest) with (String x (l ++ nl ++ rest)).
    cbn [JsString.split_go].
    now rewrite (no_newline_before x l (nl ++ rest) H).
Qed.

Lemma split_go_last_line (l : string) : forall (cur : list ascii),
  JsString.includes l nl = false ->
  JsString.split_go nl 0 cur l
  = [string_of_list_ascii (rev cur ++ list_ascii_of_string l)].
Proof.
  induction l as [|x l IH]; intros cur H.
  - simpl. now rewrite app_nil_r.
  - rewrite <- rev_cons_app, <- (IH _ (includes_tail _ _ _ H)).
    cbn [JsString.split_go].
    now rewrite (no_newline_here x l H).
Qed.

Lemma split_join_lines (lines : list string) : forall (l : string),
  forallb (fun x => negb (JsString.includes x nl)) (l :: lines) = true ->
  JsString.split (JsString.join nl (l :: lines)) nl = l :: lines.
Proof.
  unfold JsString.split, JsString.join.
  induction lines as [|l2 lines IH]; intros l H;
    cbn [forallb] in H; apply andb_prop in H; destruct H as [Hl Hrest];
    apply negb_true_iff in Hl.
  - cbn [String.concat]. rewrite (split_go_last_line l [] Hl).
    simpl. now rewrite string_of_list_ascii_of_string.
  - change (String.concat nl (l :: l2 :: lines))
      with (l ++ nl ++ String.concat nl (l2 :: lines)).
    rewrite (split_go_line l [] _ Hl), (IH l2 Hrest).
    simpl. now rewrite string_of_list_ascii_of_string.
Qed.

End SplitFacts.

Section RoundTrip.
Import Reports.

Let nl : string := String newline EmptyString.
Let delim : string := Spec.cellDelimiter.
Let plain : value -> bool := fun v => Spec.plainCell (ToString v).

(** A written line is the cells joined by the delimiter, between two
    double quotes. *)
Lemma csvLine_shape (vs : list value) : forall (v : value),
  csvLine (v :: vs)
  = String dquote
      (JsString.join delim (map ToString (v :: vs)) ++ String dquote "").
Proof.
  unfold csvLine, JsString.join.
  induction vs as [|v2 vs IH]; intros v; [reflexivity|].
  change (String.concat "," (map quoted (v :: v2 :: vs)))
    with (quoted v ++ "," ++ String.concat "," (map quoted (v2 :: vs))).
  rewrite IH.
  change (String.concat delim (map ToString (v :: v2 :: vs)))
    with (ToString v ++ delim
          ++ String.concat delim (map ToString (v2 :: vs))).
  unfold quoted, delim, Spec.cellDelimiter. simpl.
  now rewrite !append_assoc.
Qed.

Lemma dropLast_snoc (a : string) (x : ascii) :
  Spec.dropLast (a ++ String x "") = a.
Proof.
  induction a as [|y a IH]; [reflexivity|].
  change (String y a ++ String x "") with (String y (a ++ String x "")).
  cbn [Spec.dropLast]. rewrite IH.
  destruct a; reflexivity.
Qed.

Lemma plain_no_delimiter (vs : list value) :
  forallb plain vs = true ->
  forallb (fun x => negb (JsString.includes x (String dquote ",")))
          (map ToString vs) = true.
Proof.
  induction vs as [|v vs IH]; [reflexivity|].
  cbn [forallb map]. intros H. apply andb_prop in H. destruct H as [Hv Hvs].
  unfold plain, Spec.plainCell in Hv. apply andb_prop in Hv.
  destruct Hv as [_ Hv]. rewrite Hv. exact (IH Hvs).
Qed.

(** Reading a written line gives its cells back. *)
Lemma parseLine_csvLine (v : value) (vs : list value) :
  forallb plain (v :: vs) = true ->
  Spec.parseLine (csvLine (v :: vs)) = map ToString (v :: vs).
Proof.
  intros H. unfold Spec.parseLine. rewrite csvLine_shape.
  cbn [JsString.drop]. rewrite dropLast_snoc.
  apply (split_join_cells (map ToString vs) (ToString v)).
  exact (plain_no_delimiter (v :: vs) H).
Qed.

Lemma includes_newline_app (a b : string) :
  JsString.includes (a ++ b) nl
  = JsString.includes a nl || JsString.includes b nl.
Proof.
  induction a as [|x a IH].
  - simpl. destruct b; reflexivity.
  - change (String x a ++ b) with (String x (a ++ b)).
    rewrite !includes_cons, IH. unfold nl. rewrite !startsWith_cons.
    now rewrite orb_assoc.
Qed.

(** A line written from plain cells holds no line break. *)
Lemma csvLine_one_line (row : list value) :
  forallb plain row = true -> JsString.includes (csvLine row) nl = false.
Proof.
  unfold csvLine, JsString.join.
  induction row as [|v vs IH]; [reflexivity|].
  cbn [forallb]. intros H. apply andb_prop in H. destruct H as [Hv Hvs].
  assert (Hq : JsString.includes (quoted v) nl = false).
  { unfold plain, Spec.plainCell in Hv. apply andb_prop in Hv.
    destruct Hv as [Hv _]. apply negb_true_iff in Hv.
    unfold quoted.
    change (String dquote (ToString v ++ String dquote ""))
      with (String dquote "" ++ (ToString v ++ String dquote "")).
    rewrite !includes_newline_app. fold nl in Hv. rewrite Hv. reflexivity. }
  destruct vs as [|v2 vs]; [exact Hq|].
  change (String.concat "," (map quoted (v :: v2 :: vs)))
    with (quoted v ++ "," ++ String.concat "," (map quoted (v2 :: vs))).
  rewrite !includes_newline_app, Hq, (IH Hvs). reflexivity.
Qed.

(** Reading a written document gives the cells of all its rows back,
    when there is a row, no row is empty and every cell is plain. *)
Lemma parseCSV_csvDocument (first : list value) (rest : list (list value)) :
  Forall (fun row => row <> []) (first :: rest) ->
  Spec.plainRows (first :: rest) = true ->
  Spec.parseCSV (csvDocument (first :: rest))
  = map (map ToString) (first :: rest).
Proof.
  intros Hne Hplain. unfold Spec.parseCSV, csvDocument.
  change (map csvLine (first :: rest))
    with (csvLine first :: map csvLine rest).
  rewrite (split_join_lines (map csvLine rest) (csvLine first)).
  - change (csvLine first :: map csvLine rest)
      with (map csvLine (first :: rest)).
    rewrite map_map. apply map_ext_in. intros row Hin.
    rewrite Forall_forall in Hne. specialize (Hne row Hin).
    unfold Spec.plainRows in Hplain. rewrite forallb_forall in Hplain.
    specialize (Hplain row Hin).
    destruct row as [|v vs]; [congruence|].
    exact (parseLine_csvLine v vs Hplain).
  - change (csvLine first :: map csvLine rest)
      with (map csvLine (first :: rest)).
    rewrite forallb_forall. intros line Hin.
    apply in_map_iff in Hin. destruct Hin as (row & <- & Hin).
    apply negb_true_iff. apply csvLine_one_line.
    unfold Spec.plainRows in Hplain. rewrite forallb_forall in Hplain.
    exact (Hplain row Hin).
Qed.

Lemma generateCSV_document (k : Spec.kind) (report : list ReportRecord) :
  Spec.generateCSV k report
  = csvDocument (Spec.header k :: map (Spec.row k) report).
Proof. destruct k; reflexivity. Qed.

(** C2, as stated, fails: an e-mail address that holds the delimiter
    (a double quote, a comma, a double quote) is read back as two
    cells, so the row has nine cells instead of eight; and a first name
    that holds a line break is read back as two rows. *)
Lemma C2_delimiter_in_cell_is_not_recovered :
  let counts := fun emp =>
    [Sample.attendanceOf (Some emp)
       (Some (JsNumber.ofZ 20)) (Some (JsNumber.ofZ 1))
       (Some (JsNumber.ofZ 1)) (Some (JsNumber.ofZ 22))] in
  let quoted := counts Sample.delimiterInEmail in
  let broken := counts Sample.twoLineName in
  Spec.parseCSV (generateAttendanceCSV quoted)
  <> map (map ToString) (attendanceHeader :: map attendanceRow quoted)
  /\ map (@List.length string) (Spec.parseCSV (generateAttendanceCSV quoted))
     = [8%nat; 9%nat]
  /\ Spec.parseCSV (generateAttendanceCSV broken)
     <> map (map ToString) (attendanceHeader :: map attendanceRow broken)
  /\ List.length (Spec.parseCSV (generateAttendanceCSV broken)) = 3%nat.
Proof.
  cbv zeta. split; [|split; [|split]].
  - intros H. vm_compute in H. discriminate H.
  - vm_compute. reflexivity.
  - intros H. vm_compute in H. discriminate H.
  - vm_compute. reflexivity.
Qed.

(** C2, amended: for each kind the document is the header row followed
    by one row per record, every cell between double quotes, the cells
    of a row joined by commas and the rows by line breaks; and when no
    cell holds a line break or a double quote immediately followed by a
    comma, reading the document back gives the cells of the header and
    of every record, commas and other double quotes included. *)
Theorem C2_plain_cells_are_recovered
  (k : Spec.kind) (report : list ReportRecord) :
  Spec.plainRows (map (Spec.row k) report) = true ->
  Spec.generateCSV k report
  = JsString.join (String newline "")
      (map (fun row =>
              JsString.join ","
                (map (fun v => String dquote (ToString v ++ String dquote ""))
                     row))
           (Spec.header k :: map (Spec.row k) report))
  /\ Spec.parseCSV (Spec.generateCSV k report)
     = map (map ToString) (Spec.header k :: map (Spec.row k) report)
  /\ List.length (Spec.parseCSV (Spec.generateCSV k report))
     = S (List.length report).
Proof.
  intros Hplain.
  assert (Hparse : Spec.parseCSV (Spec.generateCSV k report)
                   = map (map ToString)
                       (Spec.header k :: map (Spec.row k) report)).
  { rewrite generateCSV_document. apply parseCSV_csvDocument.
    - constructor; [destruct k; discriminate|].
      rewrite Forall_forall. intros row Hin.
      apply in_map_iff in Hin. destruct Hin as (record & <- & _).
      destruct k; discriminate.
    - unfold Spec.plainRows in *. cbn [forallb]. rewrite Hplain.
      destruct k; reflexivity. }
  split; [destruct k; reflexivity|].
  split; [exact Hparse|].
  rewrite Hparse. cbn [map List.length]. now rewrite !length_map.
Qed.

(** A first name with a quoted nickname and a last name with a comma
    are read back, and so are the defaults of a record with nothing but a
    zero total. *)
Lemma C2_plain_cells_are_recovered_witness :
  let report :=
    [Sample.attendanceOf (Some Sample.quotedNickname)
       (Some (JsNumber.ofZ 20)) None (Some (JsNumber.ofZ 2))
       (Some (JsNumber.ofZ 22));
     Sample.onlyTotal 0] in
  Spec.parseCSV (generateAttendanceCSV report)
  = map (map ToString) (attendanceHeader :: map attendanceRow report).
Proof.
  cbv zeta.
  match goal with
  | |- Spec.parseCSV (generateAttendanceCSV ?report) = _ =>
      change (Spec.parseCSV (Spec.generateCSV Spec.Attendance report)
              = map (map ToString)
                  (Spec.header Spec.Attendance
                   :: map (Spec.row Spec.Attendance) report));
      apply (C2_plain_cells_are_recovered Spec.Attendance report)
  end.
  vm_compute. reflexivity.
Defined.

End RoundTrip.

(* ===================================================================== *)
(** * Further properties of the leave list *)
(* ===================================================================== *)

Section LeaveListHandlers.
Import LeaveList.

(** The handlers are their part before the [await] followed by their
    part after it. *)
Lemma fetchLeaves_split (r : reply LeavesData.t) (s : State) :
  fetchLeaves r s = fetchLeavesResume r (snd (fetchLeavesSent s)).
Proof.
  unfold fetchLeaves, fetchLeavesResume, fetchLeavesSent, apiGetLeaves,
    setLoading, setError, send.
  run_js. reflexivity.
Qed.

Lemma handleCleanup_split (r : reply CleanupData.t) (s : State) :
  handleCleanup r s = handleCleanupResume r (snd (handleCleanupSent s)).
Proof.
  unfold handleCleanup, handleCleanupResume, handleCleanupSent,
    setLoading, send.
  run_js. reflexivity.
Qed.

Lemma handleStatusChange_split
  (leaveId newStatus : string) (r : reply StatusData.t) (p : Page) :
  handleStatusChange leaveId newStatus r p
  = handleStatusChangeResume r
      (snd (handleStatusChangeSent leaveId newStatus p)).
Proof.
  unfold handleStatusChange, handleStatusChangeResume,
    handleStatusChangeSent, apiPutStatus.
  run_js. reflexivity.
Qed.

(** X1: whatever the reply to a status update, [handleStatusChange]
    completes normally, sends exactly the one update made of the leave's
    id and the new status, and leaves the fetched leaves, the warning and
    the two filters as they were: the list is never changed locally. *)
Theorem X1_status_change_keeps_the_list
  (leaveId newStatus : string) (r : reply StatusData.t) (p : Page) :
  let out := handleStatusChange leaveId newStatus r p in
  fst out = Normal tt
  /\ updates (snd out)
     = (updates p
        ++ [{| put_url := "/employee/leaves/" ++ leaveId ++ "/status";
               put_status := newStatus |}])%list
  /\ leaves (state (snd out)) = leaves (state p)
  /\ filteredLeaves (state (snd out)) = filteredLeaves (state p)
  /\ dataIssues (state (snd out)) = dataIssues (state p)
  /\ search (state (snd out)) = search (state p)
  /\ status (state (snd out)) = status (state p).
Proof.
  cbv zeta. destruct r as [[ok]|e]; [destruct ok|]; repeat split.
Qed.


(** X3: a status update that is rejected shows an error, the message of
    the error payload when there is one and "Failed to update leave
    status" otherwise, and shows no notice of its own; an update that is
    answered with [success] false changes nothing on the page but the
    update sent: no error and no notice are shown for it. *)
Theorem X3_status_change_failures
  (leaveId newStatus : string) (p : Page) :
  (forall err,
     let out := handleStatusChange leaveId newStatus (Rejected err) p in
     errorShown (state (snd out)) = true
     /\ error (state (snd out))
        = Some (match errMessage err with
                | Some (String c m) => String c m
                | _ => "Failed to update leave status"
                end)
     /\ success (state (snd out)) = success (state p)
     /\ requests (state (snd out)) = requests (state p)
     /\ timers (state (snd out)) = timers (state p))
  /\ state (snd (handleStatusChange leaveId newStatus
                   (Resolved {| StatusData.success := false |}) p))
     = state p.
Proof.
  split.
  - intros err. cbv zeta. unfold handleStatusChange, apiPutStatus, onState,
      setError. run_js. cbn.
    destruct (errMessage err) as [[|c m]|]; repeat split.
  - destruct p as [s u]. destruct s. reflexivity.
Qed.

End LeaveListHandlers.

Section LeaveListInvariant.
Import LeaveList.

(** The warning is empty or lists the employee-less leaves of the fetched
    collection. *)
Let consistent (s : State) : Prop :=
  dataIssues s = [] \/ dataIssues s = filter noEmployee (leaves s).

(** What an event may do to the fetched collection and the warning: leave
    both alone, empty the warning, or replace both by a received
    collection and its employee-less leaves. *)
Lemma step_effect (e : Event) (p : Page) :
  let s := state p in
  let s' := state (snd (step e p)) in
  (leaves s' = leaves s /\ dataIssues s' = dataIssues s)
  \/ (leaves s' = leaves s /\ dataIssues s' = [])
  \/ dataIssues s' = filter noEmployee (leaves s').
Proof.
  cbv zeta. destruct e as [|r| |r|leaveId newStatus|r|a|q|st].
  - left. split; reflexivity.
  - destruct r as [d|err]; [|left; split; reflexivity].
    destruct d as [ok received]. destruct ok; [|left; split; reflexivity].
    destruct received as [received|]; [|left; split; reflexivity].
    right. right.
    unfold step, onState, fetchLeavesResume, fetchLeavesBody, setLoading,
      setError, setDataIssues, setLeaves.
    run_js. cbn.
    destruct (filter noEmployee received) eqn:E; cbn; now rewrite ?E.
  - left. split; reflexivity.
  - destruct r as [[ok c]|err]; [destruct ok|].
    + right. left. split; reflexivity.
    + left. split; reflexivity.
    + left. split; reflexivity.
  - left. split; reflexivity.
  - destruct r as [[ok]|err]; [destruct ok|]; left; split; reflexivity.
  - destruct a. left. split; reflexivity.
  - left. split; reflexivity.
  - left. split; reflexivity.
Qed.

Lemma step_consistent (e : Event) (p : Page) :
  consistent (state p) -> consistent (state (snd (step e p))).
Proof.
  unfold consistent. intros H.
  destruct (step_effect e p) as [[Hl Hd] | [[Hl Hd] | Hf]].
  - rewrite Hl, Hd. exact H.
  - left. exact Hd.
  - right. exact Hf.
Qed.

Lemma after_consistent (events : list Event) : forall p,
  consistent (state p) -> consistent (state (after events p)).
Proof.
  induction events as [|e events IH]; intros p H; [exact H|].
  cbn [after]. apply IH. now apply step_consistent.
Qed.

(** A leave is counted at most once: among the displayed ones or among
    the employee-less ones. *)
Lemma shown_or_orphan (q : string) (l : list Leave.t) :
  (List.length (filter (shown q) l) + List.length (filter noEmployee l)
   <= List.length l)%nat.
Proof.
  induction l as [|x l IH]; [simpl; lia|].
  cbn [filter]. unfold shown at 1, noEmployee at 1.
  destruct (Leave.employee x) as [emp|]; cbn [List.length].
  - match goal with
    | |- context [if ?b then _ else _] => destruct b
    end; cbn [List.length]; lia.
  - lia.
Qed.

(** X4: after any sequence of events on the page (handlers running up to
    their [await], replies of any kind coming back in any order, timers
    firing, the filters being changed), the warning lists only leaves of
    the fetched collection that have no employee, none of them is
    displayed, and the displayed leaves and the warned ones together are
    at most the fetched ones. *)
Theorem X4_warning_and_display_stay_apart (events : list Event) :
  let s := state (after events initialPage) in
  (forall leave, In leave (dataIssues s) ->
                 In leave (leaves s)
                 /\ Leave.employee leave = None
                 /\ ~ In leave (filteredLeaves s))
  /\ (List.length (filteredLeaves s) + List.length (dataIssues s)
      <= List.length (leaves s))%nat.
Proof.
  cbv zeta.
  pose proof (after_consistent events initialPage (or_introl eq_refl)) as H.
  set (s := state (after events initialPage)) in *.
  unfold consistent in H.
  assert (Hin : forall leave, In leave (dataIssues s) ->
                  In leave (leaves s) /\ Leave.employee leave = None).
  { intros leave Hl. destruct H as [H|H]; rewrite H in Hl; [destruct Hl|].
    apply filter_In in Hl. destruct Hl as [Hl Hn]. split; [exact Hl|].
    unfold noEmployee in Hn. destruct (Leave.employee leave);
      [discriminate|reflexivity]. }
  split.
  - intros leave Hl. destruct (Hin leave Hl) as [Hm Hn].
    repeat split; auto.
    unfold filteredLeaves. rewrite filter_In. intros [_ Hs].
    unfold shown in Hs. rewrite Hn in Hs. discriminate.
  - unfold filteredLeaves.
    pose proof (shown_or_orphan (search s) (leaves s)) as Hc.
    destruct H as [H|H]; rewrite H; [simpl; lia | exact Hc].
Qed.

End LeaveListInvariant.

Section SubstringFacts.

Lemma startsWith_prefix (p : string) : forall s,
  JsString.startsWith s p = true -> exists b, s = p ++ b.
Proof.
  induction p as [|c p IH]; intros s H; [exists s; reflexivity|].
  destruct s as [|x s]; [discriminate H|].
  cbn [JsString.startsWith] in H. apply andb_prop in H. destruct H as [Hc Hp].
  apply Ascii.eqb_eq in Hc. subst x.
  destruct (IH s Hp) as [b ->]. exists b. reflexivity.
Qed.

(** [s.includes(p)] holds exactly when [s] is [p] between two texts. *)
Lemma includes_between (s p : string) :
  JsString.includes s p = true <-> exists a b, s = a ++ p ++ b.
Proof.
  split.
  - induction s as [|x s IH]; cbn [JsString.includes]; intros H;
      apply orb_prop in H; destruct H as [H|H].
    + destruct (startsWith_prefix p _ H) as [b Hb]. exists "", b. exact Hb.
    + discriminate H.
    + destruct (startsWith_prefix p _ H) as [b Hb]. exists "", b. exact Hb.
    + destruct (IH H) as (a & b & ->). exists (String x a), b. reflexivity.
  - intros (a & b & ->). apply includes_app_r. apply includes_prefix.
Qed.

Lemma includes_trans (s a b : string) :
  JsString.includes s a = true -> JsString.includes a b = true ->
  JsString.includes s b = true.
Proof.
  intros Hs Ha. apply includes_between in Hs, Ha.
  destruct Hs as (s1 & s2 & ->). destruct Ha as (a1 & a2 & ->).
  apply includes_between. exists (s1 ++ a1), (a2 ++ s2).
  now rewrite !append_assoc.
Qed.

Lemma includes_empty (s : string) : JsString.includes s "" = true.
Proof. destruct s; reflexivity. Qed.

Lemma filter_narrow {A : Type} (f g : A -> bool) (l : list A) :
  (forall x, f x = true -> g x = true) ->
  filter f (filter g l) = filter f l.
Proof.
  intros H. induction l as [|x l IH]; [reflexivity|].
  cbn [filter]. destruct (g x) eqn:Hg; cbn [filter].
  - now rewrite IH.
  - destruct (f x) eqn:Hf; [|exact IH].
    rewrite (H x Hf) in Hg. discriminate.
Qed.

End SubstringFacts.

Section LeaveListDisplay.
Import LeaveList.

Lemma shown_narrow (q q' : string) (leave : Leave.t) :
  JsString.includes (JsString.toLowerCase q') (JsString.toLowerCase q) = true ->
  shown q' leave = true -> shown q leave = true.
Proof.
  intros Hq. unfold shown.
  destruct (Leave.employee leave) as [emp|]; [|auto].
  destruct (negb (truthyStr (Employee.firstName emp))); [auto|].
  destruct (negb (truthyStr (Leave.type leave))
            || negb (truthyStr (Leave.reason leave))); [auto|].
  intros H. exact (includes_trans _ _ _ H Hq).
Qed.

(** X5: when the lowercased search text [q] is a substring of the
    lowercased search text [q'], searching for [q'] displays the leaves
    displayed for [q] filtered once more: a narrower search never brings a
    leave back, keeps the order, and gives the same whether it is run on
    the whole collection or on what is displayed already. *)
Theorem X5_narrower_search_displays_less (s : State) (q q' : string) :
  JsString.includes (JsString.toLowerCase q') (JsString.toLowerCase q) = true ->
  let shownFor := fun text => filteredLeaves (snd (setSearch text s)) in
  shownFor q' = filter (shown q') (shownFor q)
  /\ (forall leave, In leave (shownFor q') -> In leave (shownFor q))
  /\ (List.length (shownFor q') <= List.length (shownFor q))%nat.
Proof.
  intros Hq. cbv zeta.
  assert (Heq : filteredLeaves (snd (setSearch q' s))
                = filter (shown q') (filteredLeaves (snd (setSearch q s)))).
  { unfold filteredLeaves. cbn. symmetry. apply filter_narrow.
    intros leave. apply shown_narrow. exact Hq. }
  split; [exact Heq|]. split.
  - intros leave. rewrite Heq, filter_In. tauto.
  - rewrite Heq. apply filter_length_le.
Qed.

(** Typing "doe" after "do" narrows the search, whatever the case. *)
Lemma X5_narrower_search_displays_less_witness :
  let s := Sample.listed "" [Sample.sickLeave; Sample.orphanLeave] in
  filteredLeaves (snd (setSearch "DOE" s))
  = filter (shown "DOE") (filteredLeaves (snd (setSearch "do" s))).
Proof.
  cbv zeta.
  exact (proj1 (X5_narrower_search_displays_less
                  (Sample.listed "" [Sample.sickLeave; Sample.orphanLeave])
                  "do" "DOE" eq_refl)).
Defined.

(** X6: two search texts that are equal up to case display the same
    leaves, and the empty search text displays every fetched leave that
    has an employee with a first name, a type and a reason, in the order
    received. *)
Theorem X6_search_ignores_case (s : State) (q q' : string) :
  JsString.toLowerCase q = JsString.toLowerCase q' ->
  filteredLeaves (snd (setSearch q s)) = filteredLeaves (snd (setSearch q' s))
  /\ filteredLeaves (snd (setSearch "" s))
     = filter (fun leave => negb (invalidCard leave)
                            && negb (typeFallsBack leave)
                            && truthyStr (Leave.reason leave))
              (leaves s).
Proof.
  intros Hq. unfold filteredLeaves. cbn. split.
  - apply filter_ext. intros leave. unfold shown. now rewrite Hq.
  - apply filter_ext. intros leave.
    unfold shown, invalidCard, typeFallsBack.
    destruct (Leave.employee leave) as [emp|]; [|reflexivity].
    destruct (truthyStr (Employee.firstName emp)); [|reflexivity].
    destruct (truthyStr (Leave.type leave)); [|reflexivity].
    destruct (truthyStr (Leave.reason leave)); [|reflexivity].
    change (JsString.toLowerCase "") with "".
    rewrite includes_empty. reflexivity.
Qed.

Lemma X6_search_ignores_case_witness :
  let s := Sample.listed "" [Sample.sickLeave] in
  filteredLeaves (snd (setSearch "John DOE" s))
  = filteredLeaves (snd (setSearch "jOHN doe" s)).
Proof.
  cbv zeta.
  exact (proj1 (X6_search_ignores_case
                  (Sample.listed "" [Sample.sickLeave])
                  "John DOE" "jOHN doe" eq_refl)).
Defined.

(** X7: the guards in the cards are never taken.  For every leave that
    is displayed, in any state, the card "Invalid Leave Record" is not
    rendered, the type line does not fall back to "N/A", and the reason
    line is the reason of the leave, not "N/A". *)
Theorem X7_card_fallbacks_are_never_taken (s : State) :
  Forall (fun leave =>
            invalidCard leave = false
            /\ typeFallsBack leave = false
            /\ Leave.reason leave = Some (reasonText leave))
         (filteredLeaves s).
Proof.
  apply Forall_forall. intros leave Hin.
  unfold filteredLeaves in Hin. apply filter_In in Hin.
  destruct Hin as [_ Hs]. unfold shown in Hs.
  unfold invalidCard, typeFallsBack, reasonText.
  destruct (Leave.employee leave) as [emp|]; [|discriminate].
  destruct (truthyStr (Employee.firstName emp)); [|discriminate].
  destruct (truthyStr (Leave.type leave)); [|discriminate].
  destruct (Leave.reason leave) as [[|c r]|]; try discriminate.
  repeat split.
Qed.

(** X8: an answer to the list request that says [success] but carries no
    [leaves] is handled like a failure: the call completes normally, the
    error "Failed to load leave requests" is shown, and the fetched
    leaves, the warning and what is displayed stay as they were. *)
Theorem X8_list_answer_without_leaves (s : State) :
  let out := fetchLeaves
               (Resolved {| LeavesData.success := true;
                            LeavesData.leaves := None |}) s in
  fst out = Normal tt
  /\ error (snd out) = Some "Failed to load leave requests"
  /\ errorShown (snd out) = true
  /\ loading (snd out) = false
  /\ leaves (snd out) = leaves s
  /\ dataIssues (snd out) = dataIssues s
  /\ filteredLeaves (snd out) = filteredLeaves s.
Proof.
  cbv zeta. repeat split.
Qed.

(** X9: a list request that succeeds replaces what was there: the
    fetched leaves, the warning, the error, [loading] and what is
    displayed afterwards depend on the received collection and the search
    text only, not on the state before. *)
Theorem X9_list_is_a_fresh_read
  (received : list Leave.t) (s1 s2 : State) :
  search s1 = search s2 ->
  let back := fun s =>
    snd (fetchLeaves (Resolved {| LeavesData.success := true;
                                  LeavesData.leaves := Some received |}) s) in
  leaves (back s1) = leaves (back s2)
  /\ dataIssues (back s1) = dataIssues (back s2)
  /\ error (back s1) = None
  /\ error (back s2) = None
  /\ filteredLeaves (back s1) = filteredLeaves (back s2)
  /\ listView (back s1) = listView (back s2)
  /\ warningShown (back s1) = warningShown (back s2).
Proof.
  intros Hq. cbv beta zeta. rewrite !fetchLeaves_success.
  unfold filteredLeaves, listView, warningShown, filteredLeaves. cbn.
  rewrite Hq. repeat split.
Qed.

Lemma X9_list_is_a_fresh_read_witness :
  let back := fun s =>
    snd (fetchLeaves (Resolved {| LeavesData.success := true;
                                  LeavesData.leaves := Some [Sample.sickLeave] |}) s) in
  filteredLeaves (back (Sample.listed "" [Sample.orphanLeave]))
  = filteredLeaves (back (Sample.mounted "")).
Proof.
  cbv zeta.
  apply (X9_list_is_a_fresh_read [Sample.sickLeave]
           (Sample.listed "" [Sample.orphanLeave]) (Sample.mounted "")).
  reflexivity.
Defined.


(** X11: the Approve and Reject buttons are rendered exactly for the
    leaves whose status is missing, empty or "pending"; a leave that has
    them has the yellow badge, and an approved (green) or rejected (red)
    leave never has them. *)
Theorem X11_actions_only_while_pending (leave : Leave.t) :
  (showActions leave = true
   <-> Leave.status leave = None \/ Leave.status leave = Some ""
       \/ Leave.status leave = Some "pending")
  /\ (showActions leave = true -> badge leave = Yellow)
  /\ (badge leave = Green <-> Leave.status leave = Some "approved")
  /\ (badge leave = Red <-> Leave.status leave = Some "rejected")
  /\ (badge leave <> Yellow -> showActions leave = false).
Proof.
  unfold showActions, badge.
  destruct (Leave.status leave) as [st|]; cbn.
  - destruct (String.eqb_spec st "approved") as [->|Ha].
    { cbn. repeat split; try discriminate; try congruence;
        intros H; repeat destruct H as [H|H]; discriminate. }
    destruct (String.eqb_spec st "rejected") as [->|Hr].
    { cbn. repeat split; try discriminate; try congruence;
        intros H; repeat destruct H as [H|H]; discriminate. }
    destruct (String.eqb_spec st "pending") as [->|Hp].
    { cbn. repeat split; try discriminate; try congruence; auto. }
    destruct st as [|c st]; cbn.
    + repeat split; try discriminate; try congruence; auto.
    + repeat split; try discriminate; try congruence.
      intros H; repeat destruct H as [H|H]; congruence.
  - repeat split; try discriminate; try congruence; auto.
Qed.

End LeaveListDisplay.

(* ===================================================================== *)
(** * Further properties of report generation *)
(* ===================================================================== *)

Section ReportCalls.
Import Reports.

Ltac run_report_call :=
  unfold handleGenerateReport, reportFailure, setLoading, setError, apiGet,
    download;
  run_js.

(** The [catch] block always leaves an error that is shown, and nothing
    else. *)
Lemma reportFailure_effect (err : Error) (s : State) :
  exists m, reportFailure err s
            = (Normal tt,
               {| loading := loading s; error := Some m;
                  selectedMonth := selectedMonth s;
                  selectedYear := selectedYear s;
                  requests := requests s; downloads := downloads s |})
            /\ JsString.truthy m = true.
Proof.
  unfold reportFailure, setError. run_js.
  repeat match goal with
         | |- context [if ?b then _ else _] => destruct b
         end;
    eexists; (split; [reflexivity|]);
    try reflexivity; apply strOr_truthy; reflexivity.
Qed.

(** X12: every call of [handleGenerateReport], whatever the kind and
    whatever the request comes back with, completes normally with
    [loading] false, and ends in one of two ways: one file more is
    downloaded and no error is shown, or nothing is downloaded and an
    error is shown.  A file is downloaded only for an answer that says
    [success], carries at least one record and is of kind attendance,
    leave or department. *)
Theorem X12_one_download_or_one_error
  (type : string) (r : reply ReportResponse) (s : State) :
  let out := handleGenerateReport type r s in
  fst out = Normal tt
  /\ loading (snd out) = false
  /\ ((error (snd out) = None
       /\ exists file, downloads (snd out) = (downloads s ++ [file])%list)
      \/ (errorShown (snd out) = true /\ downloads (snd out) = downloads s))
  /\ (downloads (snd out) <> downloads s ->
      exists first rest,
        r = Resolved {| success := true; report := Some (first :: rest) |}
        /\ (type = "attendance" \/ type = "leave" \/ type = "department")).
Proof.
  cbv zeta. destruct r as [[ok rep]|err].
  - destruct ok.
    + destruct rep as [[|first rest]|].
      * run_report_call.
        destruct (String.eqb type "department"); cbn;
          repeat split; try (right; split; reflexivity); congruence.
      * run_report_call.
        destruct (String.eqb_spec type "department") as [->|Hd]; cbn.
        { repeat split; [left; split; [reflexivity|eexists; reflexivity]|].
          intros _. exists first, rest. auto. }
        destruct (String.eqb_spec type "attendance") as [->|Ha]; cbn.
        { repeat split; [left; split; [reflexivity|eexists; reflexivity]|].
          intros _. exists first, rest. auto. }
        destruct (String.eqb_spec type "leave") as [->|Hl]; cbn.
        { repeat split; [left; split; [reflexivity|eexists; reflexivity]|].
          intros _. exists first, rest. auto. }
        repeat split; [right; split; reflexivity | congruence].
      * run_report_call.
        destruct (String.eqb type "department"); cbn;
          repeat split; try (right; split; reflexivity); congruence.
    + run_report_call.
      destruct (String.eqb type "department"); cbn;
        repeat split; try (right; split; reflexivity); congruence.
  - unfold handleGenerateReport, setLoading, setError, apiGet. run_js.
    destruct (String.eqb type "department"); cbn [fst snd];
      match goal with
      | |- context [reportFailure err ?st] =>
          destruct (reportFailure_effect err st) as (m & -> & Hm)
      end; cbn;
      (repeat split; [right; split; [exact Hm | reflexivity] | congruence]).
Qed.

(** X13: a report of a known kind with at least one record is downloaded
    as one file whose text is what the generator of the kind writes; the
    name of the file is made of the kind and, for attendance and leave, of
    the selected year and month, while the department report has one fixed
    name. *)
Theorem X13_downloaded_file
  (k : Spec.kind) (first : ReportRecord) (rest : list ReportRecord)
  (s : State) :
  let type := match k with
              | Spec.Attendance => "attendance"
              | Spec.Leave => "leave"
              | Spec.Department => "department"
              end in
  let dated := fun prefix =>
    prefix ++ JsNumber.toString (selectedYear s) ++ "_"
    ++ JsNumber.toString (selectedMonth s) ++ ".csv" in
  let out := handleGenerateReport type
               (Resolved {| success := true;
                            report := Some (first :: rest) |}) s in
  downloads (snd out)
  = (downloads s
     ++ [{| filename := match k with
                        | Spec.Attendance => dated "attendance_report_"
                        | Spec.Leave => dated "leave_report_"
                        | Spec.Department => "department_report.csv"
                        end;
            content := Spec.generateCSV k (first :: rest) |}])%list
  /\ error (snd out) = None.
Proof.
  destruct k; split; reflexivity.
Qed.

(** X14: every call sends exactly one request, whatever comes back: for
    the kind department the path of the department report without
    parameters, for any other kind the path ending in the kind with the
    selected month and year as parameters.  The selected month and year
    are never changed by a call. *)
Theorem X14_one_request_per_call
  (type : string) (r : reply ReportResponse) (s : State) :
  let out := handleGenerateReport type r s in
  requests (snd out)
  = (requests s
     ++ [if String.eqb type "department"
         then {| url := "/employee/reports/department"; params := None |}
         else {| url := "/employee/reports/" ++ type;
                 params := Some (selectedMonth s, selectedYear s) |}])%list
  /\ selectedMonth (snd out) = selectedMonth s
  /\ selectedYear (snd out) = selectedYear s.
Proof.
  cbv zeta. destruct r as [[ok rep]|err].
  - run_report_call.
    destruct (String.eqb type "department"); cbn [fst snd];
      destruct ok; cbn; try (repeat split; fail);
      destruct rep as [[|first rest]|]; cbn; try (repeat split; fail);
      destruct (String.eqb type "attendance"); cbn; try (repeat split; fail);
      destruct (String.eqb type "leave"); cbn; repeat split.
  - unfold handleGenerateReport, setLoading, setError, apiGet. run_js.
    destruct (String.eqb type "department"); cbn [fst snd];
      match goal with
      | |- context [reportFailure err ?st] =>
          destruct (reportFailure_effect err st) as (m & -> & Hm)
      end; cbn; repeat split.
Qed.

(** X15: when the component mounts, the selected month is one of the
    twelve month options and the selected year is one of the five year
    options, the third of them: two years before and two years after the
    current one can be selected. *)
Theorem X15_initial_selection_is_an_option (monthIndex fullYear : Z) :
  0 <= monthIndex <= 11 ->
  let s := initialState monthIndex fullYear in
  In (selectedMonth s) monthOptions
  /\ nth_error (yearOptions fullYear) 2 = Some (selectedYear s)
  /\ List.length monthOptions = 12%nat
  /\ List.length (yearOptions fullYear) = 5%nat
  /\ loading s = false /\ error s = None /\ buttonsDisabled s = false.
Proof.
  intros Hm. cbv zeta. split.
  - unfold monthOptions, initialState. cbn [selectedMonth].
    apply in_map_iff. exists (Z.to_nat monthIndex). split.
    + f_equal. lia.
    + apply in_seq. lia.
  - unfold yearOptions, initialState. cbn [selectedYear map seq nth_error].
    repeat split. f_equal. f_equal. lia.
Qed.

Lemma X15_initial_selection_is_an_option_witness :
  In (selectedMonth (initialState 10 2026)) monthOptions
  /\ nth_error (yearOptions 2026) 2 = Some (selectedYear (initialState 10 2026)).
Proof.
  destruct (X15_initial_selection_is_an_option 10 2026 ltac:(lia))
    as (Hm & Hy & _).
  split; [exact Hm | exact Hy].
Defined.

End ReportCalls.

Section PlainTexts.
Import JsNumber.

Let nl : string := String newline EmptyString.
Let dq_comma : string := String dquote (String "," EmptyString).

Lemma allPlain_app (a b : string) :
  Spec.allPlain (a ++ b) = Spec.allPlain a && Spec.allPlain b.
Proof.
  induction a as [|c a IH]; simpl; [reflexivity|].
  now rewrite IH, andb_assoc.
Qed.

Lemma allPlain_uint (d : Decimal.uint) :
  Spec.allPlain (NilEmpty.string_of_uint d) = true.
Proof. induction d; simpl; auto. Qed.

Lemma allPlain_digits (n : Z) : Spec.allPlain (digits n) = true.
Proof. apply allPlain_uint. Qed.

Lemma allPlain_zeros (n : nat) : Spec.allPlain (JsString.zeros n) = true.
Proof. induction n; simpl; auto. Qed.

Lemma allPlain_take (n : nat) : forall s,
  Spec.allPlain s = true -> Spec.allPlain (JsString.take n s) = true.
Proof.
  induction n as [|n IH]; intros [|c s] H; simpl in *; auto.
  apply andb_prop in H. destruct H as [Hc Hs]. now rewrite Hc, IH.
Qed.

Lemma allPlain_drop (n : nat) : forall s,
  Spec.allPlain s = true -> Spec.allPlain (JsString.drop n s) = true.
Proof.
  induction n as [|n IH]; intros [|c s] H; simpl in *; auto.
  apply andb_prop in H. destruct H as [_ Hs]. now apply IH.
Qed.

Lemma allPlain_layout (ds : string) (n : Z) :
  Spec.allPlain ds = true -> Spec.allPlain (layout ds n) = true.
Proof.
  intros H. unfold layout.
  repeat match goal with
         | |- context [if ?b then _ else _] => destruct b
         end;
    rewrite ?allPlain_app, ?allPlain_zeros, ?allPlain_digits, ?H,
      ?(allPlain_take _ _ H), ?(allPlain_drop _ _ H);
    reflexivity.
Qed.

(** A number is written without double quote, comma or line break. *)
Lemma allPlain_toString (x : number) : Spec.allPlain (toString x) = true.
Proof.
  destruct x as [s|s| |s m e]; try (destruct s; reflexivity); try reflexivity.
  cbn [toString]. destruct (shortest m e) as [d n].
  rewrite allPlain_app, allPlain_layout by apply allPlain_digits.
  destruct s; reflexivity.
Qed.

Lemma allPlain_fixedDigits (f : nat) (n : Z) :
  Spec.allPlain (fixedDigits f n) = true.
Proof.
  unfold fixedDigits. destruct f as [|f]; [apply allPlain_digits|].
  set (ds := JsString.zeros (S (S f) - String.length (digits n)) ++ digits n).
  assert (H : Spec.allPlain ds = true)
    by (unfold ds; now rewrite allPlain_app, allPlain_zeros, allPlain_digits).
  rewrite !allPlain_app, (allPlain_take _ _ H), (allPlain_drop _ _ H).
  reflexivity.
Qed.

Lemma allPlain_toFixed (x : number) (f : nat) :
  Spec.allPlain (toFixed x f) = true.
Proof.
  destruct x as [s|s| |s m e]; try (destruct s; reflexivity); try reflexivity.
  - apply allPlain_fixedDigits.
  - cbn [toFixed].
    destruct (10 ^ 21 * fden e <=? fnum m e);
      [apply allPlain_toString|].
    rewrite allPlain_app, allPlain_fixedDigits. destruct s; reflexivity.
Qed.

(** A text with none of the three characters holds neither a line break
    nor a double quote before a comma, and does not end with a double
    quote. *)
Lemma allPlain_no_newline (s : string) :
  Spec.allPlain s = true -> JsString.includes s nl = false.
Proof.
  induction s as [|c s IH]; [reflexivity|].
  cbn [Spec.allPlain]. intros H. apply andb_prop in H. destruct H as [Hc Hs].
  rewrite includes_cons, (IH Hs). unfold nl. rewrite startsWith_cons.
  unfold Spec.plainChar in Hc. apply andb_prop in Hc. destruct Hc as [_ Hc].
  apply negb_true_iff in Hc. rewrite Ascii.eqb_sym, Hc. reflexivity.
Qed.

Lemma allPlain_no_quote_comma (s : string) :
  Spec.allPlain s = true -> JsString.includes s dq_comma = false.
Proof.
  induction s as [|c s IH]; [reflexivity|].
  cbn [Spec.allPlain]. intros H. apply andb_prop in H. destruct H as [Hc Hs].
  rewrite includes_cons, (IH Hs). unfold dq_comma. rewrite startsWith_cons.
  unfold Spec.plainChar in Hc. apply andb_prop in Hc. destruct Hc as [Hc _].
  apply andb_prop in Hc. destruct Hc as [Hc _].
  apply negb_true_iff in Hc. rewrite Ascii.eqb_sym, Hc. reflexivity.
Qed.

Lemma allPlain_no_final_quote (s : string) :
  Spec.allPlain s = true -> Spec.endsWithQuote s = false.
Proof.
  induction s as [|c s IH]; [reflexivity|].
  cbn [Spec.allPlain]. intros H. apply andb_prop in H. destruct H as [Hc Hs].
  cbn [Spec.endsWithQuote]. destruct s as [|c' s]; [|exact (IH Hs)].
  unfold Spec.plainChar in Hc. apply andb_prop in Hc. destruct Hc as [Hc _].
  apply andb_prop in Hc. destruct Hc as [Hc _].
  apply negb_true_iff in Hc. now rewrite Ascii.eqb_sym.
Qed.

Lemma allPlain_plainCell (s : string) :
  Spec.allPlain s = true -> Spec.plainCell s = true.
Proof.
  intros H. unfold Spec.plainCell.
  fold nl. fold dq_comma.
  now rewrite (allPlain_no_newline s H), (allPlain_no_quote_comma s H).
Qed.

Lemma plainCell_parts (s : string) :
  Spec.plainCell s = true
  <-> JsString.includes s nl = false /\ JsString.includes s dq_comma = false.
Proof.
  unfold Spec.plainCell. fold nl. fold dq_comma.
  rewrite andb_true_iff, !negb_true_iff. tauto.
Qed.

Lemma endsWithQuote_app (a b : string) :
  b <> "" -> Spec.endsWithQuote (a ++ b) = Spec.endsWithQuote b.
Proof.
  intros Hb. induction a as [|c a IH]; [reflexivity|].
  change (String c a ++ b) with (String c (a ++ b)).
  cbn [Spec.endsWithQuote]. rewrite IH.
  destruct (a ++ b) eqn:E; [|reflexivity].
  destruct a; [simpl in E; congruence | discriminate E].
Qed.

(** No double quote before a comma arises where two texts meet, when the
    first does not end with a double quote or the second does not begin
    with a comma. *)
Lemma no_quote_comma_app (a b : string) :
  JsString.includes a dq_comma = false ->
  JsString.includes b dq_comma = false ->
  Spec.endsWithQuote a = false \/ JsString.startsWith b "," = false ->
  JsString.includes (a ++ b) dq_comma = false.
Proof.
  intros Ha Hb Hmeet. induction a as [|x a IH]; [exact Hb|].
  change (String x a ++ b) with (String x (a ++ b)).
  rewrite includes_cons in Ha |- *.
  apply orb_false_elim in Ha. destruct Ha as [Hx Ha].
  assert (Hmeet' : a <> "" ->
            Spec.endsWithQuote a = false \/ JsString.startsWith b "," = false).
  { intros Hne. destruct Hmeet as [H|H]; [left|right; exact H].
    cbn [Spec.endsWithQuote] in H. destruct a; [congruence|exact H]. }
  apply orb_false_intro.
  - unfold dq_comma in *. rewrite startsWith_cons in Hx |- *.
    destruct (Ascii.eqb dquote x) eqn:Ex; [|reflexivity].
    rewrite andb_true_l in Hx |- *.
    destruct a as [|y a].
    + change ("" ++ b) with b. destruct Hmeet as [H|H]; [|exact H].
      cbn [Spec.endsWithQuote] in H. congruence.
    + change (String y a ++ b) with (String y (a ++ b)).
      rewrite startsWith_cons in Hx |- *. exact Hx.
  - destruct a as [|y a]; [exact Hb|].
    apply IH; [exact Ha | apply Hmeet'; discriminate].
Qed.

Lemma plainCell_app (a b : string) :
  Spec.plainCell a = true -> Spec.plainCell b = true ->
  Spec.endsWithQuote a = false \/ JsString.startsWith b "," = false ->
  Spec.plainCell (a ++ b) = true.
Proof.
  rewrite !plainCell_parts. intros [Ha1 Ha2] [Hb1 Hb2] Hmeet. split.
  - unfold nl in *. now rewrite includes_newline_app, Ha1, Hb1.
  - now apply no_quote_comma_app.
Qed.

End PlainTexts.

Section ReportFields.
Import JsNumber Reports.

Lemma plain_strOr (field : option string) (fallback : string) :
  Spec.plainText field = true -> Spec.plainCell fallback = true ->
  Spec.plainCell (strOr field fallback) = true.
Proof.
  intros Hf Hb. destruct field as [text|]; [|exact Hb].
  simpl. destruct (JsString.truthy text); [exact Hf | exact Hb].
Qed.

Lemma plainCell_after_space (a b : string) :
  Spec.plainCell a = true -> Spec.plainCell b = true ->
  Spec.plainCell (a ++ " " ++ b) = true.
Proof.
  intros Ha Hb. apply plainCell_app; [exact Ha | | right; reflexivity].
  apply (plainCell_app " " b); [reflexivity | exact Hb | left; reflexivity].
Qed.

Lemma plain_number (x : number) : Spec.plainCell (toString x) = true.
Proof. apply allPlain_plainCell, allPlain_toString. Qed.

Lemma plain_rate (record : ReportRecord) :
  Spec.plainCell (attendanceRate record ++ "%") = true.
Proof.
  apply allPlain_plainCell. rewrite allPlain_app. unfold attendanceRate.
  destruct (gt _ _); [rewrite allPlain_toFixed|]; reflexivity.
Qed.

(** One entry of the positions cell, for a plain title. *)
Lemma plain_position (pos : string) (count : number) :
  Spec.plainCell pos = true ->
  Spec.plainCell (pos ++ ": " ++ toString count) = true
  /\ Spec.endsWithQuote (pos ++ ": " ++ toString count) = false.
Proof.
  intros Hp.
  assert (Htail : Spec.allPlain (": " ++ toString count) = true)
    by (rewrite allPlain_app, allPlain_toString; reflexivity).
  split.
  - apply plainCell_app; [exact Hp | | right; reflexivity].
    now apply allPlain_plainCell.
  - rewrite endsWithQuote_app by discriminate.
    now apply allPlain_no_final_quote.
Qed.

Lemma plain_positions (entries : list (string * number)) :
  forallb (fun entry => Spec.plainCell (fst entry)) entries = true ->
  Spec.plainCell (positionsCell entries) = true.
Proof.
  unfold positionsCell, JsString.join.
  induction entries as [|[pos count] entries IH]; [reflexivity|].
  cbn [forallb fst]. intros H. apply andb_prop in H. destruct H as [Hp Hrest].
  destruct (plain_position pos count Hp) as [Hcell Hend].
  destruct entries as [|next entries]; [exact Hcell|].
  change (String.concat ", " (map _ ((pos, count) :: next :: entries)))
    with ((pos ++ ": " ++ toString count) ++ ", "
          ++ String.concat ", "
               (map (fun '(pos, count) => pos ++ ": " ++ toString count)
                    (next :: entries))).
  apply plainCell_app; [exact Hcell | | left; exact Hend].
  apply (plainCell_app ", "); [reflexivity | exact (IH Hrest) | left; reflexivity].
Qed.

(** The cells of a record with plain text fields are plain. *)
Lemma plainRecord_row (k : Spec.kind) (record : ReportRecord) :
  Spec.plainRecord record = true ->
  forallb (fun v => Spec.plainCell (ToString v)) (Spec.row k record) = true.
Proof.
  unfold Spec.plainRecord. intros H.
  repeat (apply andb_prop in H; destruct H as [H ?]).
  assert (Hname : Spec.plainCell (employeeName record) = true)
    by (apply plainCell_after_space; apply plain_strOr;
        solve [assumption | reflexivity]).
  assert (Hmail : Spec.plainCell (employeeEmail record) = true)
    by (apply plain_strOr; solve [assumption | reflexivity]).
  assert (Hdept : Spec.plainCell (employeeDepartment record) = true)
    by (apply plain_strOr; solve [assumption | reflexivity]).
  destruct k; cbn [Spec.row attendanceRow leaveRow departmentRow forallb ToString].
  - now rewrite Hname, Hmail, Hdept, !plain_number, plain_rate.
  - now rewrite Hname, Hmail, Hdept, !plain_number.
  - rewrite plain_strOr, plain_number by solve [assumption | reflexivity].
    destruct (positions record) as [entries|]; [|reflexivity].
    now rewrite plain_positions.
Qed.

(** X16: for each kind, when the text fields of the records (the names,
    e-mail address and department of the employee, the department of the
    record and the titles of its positions) hold no line break and no
    double quote immediately followed by a comma, every cell of every row
    is plain, the counts and the rate included, and reading the generated
    document back gives the cells of the header and of every record. *)
Theorem X16_plain_fields_are_recovered
  (k : Spec.kind) (report : list ReportRecord) :
  forallb Spec.plainRecord report = true ->
  Spec.plainRows (map (Spec.row k) report) = true
  /\ Spec.parseCSV (Spec.generateCSV k report)
     = map (map ToString) (Spec.header k :: map (Spec.row k) report).
Proof.
  intros H.
  assert (Hrows : Spec.plainRows (map (Spec.row k) report) = true).
  { unfold Spec.plainRows. rewrite forallb_forall. intros row Hin.
    apply in_map_iff in Hin. destruct Hin as (record & <- & Hin).
    rewrite forallb_forall in H. exact (plainRecord_row k record (H record Hin)). }
  split; [exact Hrows|].
  rewrite generateCSV_document. apply parseCSV_csvDocument.
  - constructor; [destruct k; discriminate|].
    rewrite Forall_forall. intros row Hin.
    apply in_map_iff in Hin. destruct Hin as (record & <- & _).
    destruct k; discriminate.
  - unfold Spec.plainRows in *. cbn [forallb]. rewrite Hrows.
    destruct k; reflexivity.
Qed.

(** A department record with a comma in a title, quotes in its name and
    two positions. *)
Lemma X16_plain_fields_are_recovered_witness :
  let record :=
    {| employee := None; present := None; absent := None; late := None;
       total := Some (ofZ 7); approved := None; pending := None;
       rejected := None;
       department := Some ("R&D " ++ String dquote ("Lab" ++ String dquote ""));
       positions := Some [("Engineer, senior", ofZ 3); ("Intern", ofZ 4)] |} in
  Spec.parseCSV (generateDepartmentCSV [record])
  = [["Department"; "Total Employees"; "Positions"];
     ["R&D " ++ String dquote ("Lab" ++ String dquote ""); "7";
      "Engineer, senior: 3, Intern: 4"]].
Proof.
  cbv zeta.
  match goal with
  | |- Spec.parseCSV (generateDepartmentCSV ?report) = _ =>
      refine (eq_trans
                (proj2 (X16_plain_fields_are_recovered Spec.Department report _))
                _)
  end.
  - vm_compute. reflexivity.
  - vm_compute. reflexivity.
Defined.

(** X17: the positions cell of a department row is "N/A" when the
    record has no [positions]; otherwise it lists every position as
    "title: count", separated by ", ", and it is empty exactly when
    [positions] is an object without entries. *)
Theorem X17_positions_cell (record : ReportRecord) :
  let cell := nth 2 (map ToString (departmentRow record)) "" in
  (positions record = None -> cell = "N/A")
  /\ (forall entries,
        positions record = Some entries ->
        cell = JsString.join ", "
                 (map (fun entry => fst entry ++ ": " ++ toString (snd entry))
                      entries)
        /\ (cell = "" <-> entries = [])).
Proof.
  cbv zeta. unfold departmentRow. cbn [map nth ToString]. split.
  - intros ->. reflexivity.
  - intros entries ->. unfold positionsCell, JsString.join. split.
    + f_equal. apply map_ext. intros [pos count]. reflexivity.
    + split; [|intros ->; reflexivity].
      destruct entries as [|[pos count] entries]; [reflexivity|].
      destruct entries as [|next entries]; cbn [map String.concat]; intros H.
      * destruct pos; discriminate H.
      * destruct pos; discriminate H.
Qed.

(** X18: for the counts of a month, [present] days out of [total] with
    [0 <= present <= total] and [1 <= total <= 31], the rate cell is
    [present / total * 100] rounded to the nearest hundredth, written with
    two decimals and the percent sign: the arithmetic in doubles loses
    nothing there.  In particular a month without a day present gives
    "0.00%" and a month without a day missed gives "100.00%". *)
Theorem X18_rate_of_month_counts (record : ReportRecord) (p t : Z) :
  0 <= p <= t -> 0 < t <= 31 ->
  present record = Some (ofZ p) ->
  total record = Some (ofZ t) ->
  Spec.rateCell record = Spec.percentOf p t
  /\ (p = 0 -> Spec.rateCell record = "0.00%")
  /\ (p = t -> Spec.rateCell record = "100.00%").
Proof.
  intros Hp Ht Hpres Htot.
  rewrite (attendanceRate_month_counts record p t Hp Ht Hpres Htot).
  split; [reflexivity|]. unfold Spec.percentOf. cbv zeta. split.
  - intros ->. replace ((20000 * 0 + t) / (2 * t)) with 0; [reflexivity|].
    symmetry. apply Z.div_small. lia.
  - intros ->. replace ((20000 * t + t) / (2 * t)) with 10000; [reflexivity|].
    apply Z.div_unique with (r := t); lia.
Qed.

(** 3 days out of 4, 20 out of 22, and a full week. *)
Lemma X18_rate_of_month_counts_witness :
  let rate := fun p t =>
    Spec.rateCell (Sample.attendanceOf None (Some (ofZ p)) None None
                     (Some (ofZ t))) in
  rate 3 4 = "75.00%" /\ rate 20 22 = "90.91%" /\ rate 7 7 = "100.00%".
Proof.
  cbv beta zeta.
  split; [|split].
  - exact (proj1 (X18_rate_of_month_counts
                    (Sample.attendanceOf None (Some (ofZ 3)) None None
                       (Some (ofZ 4)))
                    3 4 ltac:(lia) ltac:(lia) eq_refl eq_refl)).
  - exact (proj1 (X18_rate_of_month_counts
                    (Sample.attendanceOf None (Some (ofZ 20)) None None
                       (Some (ofZ 22)))
                    20 22 ltac:(lia) ltac:(lia) eq_refl eq_refl)).
  - exact (proj2 (proj2 (X18_rate_of_month_counts
                    (Sample.attendanceOf None (Some (ofZ 7)) None None
                       (Some (ofZ 7)))
                    7 7 ltac:(lia) ltac:(lia) eq_refl eq_refl)) eq_refl).
Defined.

(** X19: whenever the rate is computed from a [present] and a [total]
    that are numbers and lies in the range that [toFixed] writes in fixed
    notation (below 10^21 in magnitude), and whenever [total] is not
    greater than zero, the rate cell is an optional minus sign, digits, a
    point, two digits and the percent sign; no character of it needs
    quoting. *)
Theorem X19_rate_has_two_decimals (record : ReportRecord) :
  gt (ToNumber (total record)) (ofZ 0) = false
  \/ fixedRange (mul (div (ToNumber (present record))
                          (ToNumber (total record))) (ofZ 100)) = true ->
  exists rate,
    Spec.rateCell record = rate ++ "%"
    /\ Spec.twoDecimals rate = true
    /\ Spec.allPlain rate = true.
Proof.
  intros H. exists (attendanceRate record).
  destruct (attendanceRate_two_decimals record H) as [Htwo Hcell].
  split; [exact Hcell|]. split; [exact Htwo|].
  unfold attendanceRate.
  destruct (gt _ _); [apply allPlain_toFixed | reflexivity].
Qed.

(** A third of the days, and a rate of a million percent. *)
Lemma X19_rate_has_two_decimals_witness :
  exists rate,
    Spec.rateCell (Sample.attendanceOf None (Some (ofZ 10000)) None None
                     (Some (ofZ 1)))
    = rate ++ "%"
    /\ Spec.twoDecimals rate = true
    /\ Spec.allPlain rate = true.
Proof.
  apply X19_rate_has_two_decimals. right. vm_compute. reflexivity.
Defined.

End ReportFields.

(* ===================================================================== *)
(** * Properties of the request interceptor *)
(* ===================================================================== *)

Section ApiFacts.
Import Api.

Lemma getHeader_setHeader_same (k v : string) (h : Headers) :
  getHeader k (setHeader k v h) = Some v.
Proof.
  induction h as [|[k' v'] h IH]; cbn [setHeader getHeader].
  - now rewrite String.eqb_refl.
  - destruct (String.eqb k k') eqn:E; cbn [getHeader]; rewrite E; auto.
Qed.

Lemma getHeader_setHeader_other (k k0 v : string) (h : Headers) :
  k0 <> k -> getHeader k0 (setHeader k v h) = getHeader k0 h.
Proof.
  intros Hne. induction h as [|[k' v'] h IH]; cbn [setHeader getHeader].
  - apply String.eqb_neq in Hne. now rewrite Hne.
  - destruct (String.eqb_spec k k') as [<-|Hk]; cbn [getHeader].
    + apply String.eqb_neq in Hne. now rewrite Hne.
    + now rewrite IH.
Qed.

Lemma setHeader_twice (k v : string) (h : Headers) :
  setHeader k v (setHeader k v h) = setHeader k v h.
Proof.
  induction h as [|[k' v'] h IH]; cbn [setHeader].
  - now rewrite String.eqb_refl.
  - destruct (String.eqb k k') eqn:E; cbn [setHeader]; rewrite E;
      [reflexivity | now rewrite IH].
Qed.

Lemma setHeader_length (k v : string) (h : Headers) :
  (List.length (setHeader k v h)
   = match getHeader k h with
     | Some _ => List.length h
     | None => S (List.length h)
     end)%nat.
Proof.
  induction h as [|[k' v'] h IH]; cbn [setHeader getHeader]; [reflexivity|].
  destruct (String.eqb k k'); cbn [List.length]; [reflexivity|].
  rewrite IH. destruct (getHeader k h); reflexivity.
Qed.

(** X20: with a token in the local storage the request interceptor sets
    the header [Authorization] to "Bearer " followed by the token,
    replacing an earlier value in place or adding the header last, and
    leaves the method, the addresses and every other header as they were;
    with no token, or an empty one, it returns the configuration
    unchanged, an earlier [Authorization] header included.  Running it
    again on its result changes nothing, and the response interceptors
    hand every reply on as it is. *)
Theorem X20_request_interceptor (token : option string) (config : Config) :
  let sent := requestInterceptor token config in
  method sent = method config
  /\ baseURL sent = baseURL config
  /\ url sent = url config
  /\ (forall k, k <> "Authorization" ->
                getHeader k (headers sent) = getHeader k (headers config))
  /\ getHeader "Authorization" (headers sent)
     = match token with
       | Some (String c t) => Some ("Bearer " ++ String c t)
       | _ => getHeader "Authorization" (headers config)
       end
  /\ (List.length (headers sent) <= S (List.length (headers config)))%nat
  /\ (truthyStr token = false -> sent = config)
  /\ requestInterceptor token sent = sent
  /\ (forall (A : Type) (r : reply A), responseInterceptor r = r).
Proof.
  cbv zeta. unfold requestInterceptor.
  destruct token as [[|c t]|]; cbn [truthyStr JsString.truthy strOr].
  - repeat split; auto. intros A [x|e]; reflexivity.
  - cbn [method baseURL url headers].
    repeat split; try discriminate.
    + intros k Hk. now apply getHeader_setHeader_other.
    + apply getHeader_setHeader_same.
    + rewrite setHeader_length. destruct (getHeader _ _); lia.
    + now rewrite setHeader_twice.
    + intros A [x|e]; reflexivity.
  - repeat split; auto. intros A [x|e]; reflexivity.
Qed.

End ApiFacts.

(* ===================================================================== *)
(** * Sequences of events on the leave page *)
(* ===================================================================== *)

Section LeaveListSequences.
Import LeaveList.

(** X21: a cleanup that succeeds changes neither the fetched leaves nor
    what is displayed; its notice names the count the service reported,
    and reads "Cleaned up undefined orphaned leave records" when the
    answer carries no count.  [loading] is false afterwards although the
    list request it sent last has not come back. *)
Theorem X21_cleanup_notice_and_list (c : option JsNumber.number) (s : State) :
  let out := handleCleanup
               (Resolved {| CleanupData.success := true;
                            CleanupData.deletedCount := c |}) s in
  leaves (snd out) = leaves s
  /\ filteredLeaves (snd out) = filteredLeaves s
  /\ success (snd out)
     = Some (match c with
             | Some n => "Cleaned up " ++ JsNumber.toString n
                         ++ " orphaned leave records"
             | None => "Cleaned up undefined orphaned leave records"
             end)
  /\ successShown (snd out) = true
  /\ error (snd out) = None
  /\ loading (snd out) = false
  /\ last (requests (snd out)) DeleteCleanup
     = GetLeaves (if String.eqb (status s) "all" then None
                  else Some (status s)).
Proof.
  cbv zeta.
  assert (Hnotice :
            success (snd (handleCleanup
                            (Resolved {| CleanupData.success := true;
                                         CleanupData.deletedCount := c |}) s))
            = Some ("Cleaned up " ++ countText c
                    ++ " orphaned leave records")) by reflexivity.
  assert (Hreq :
            requests (snd (handleCleanup
                            (Resolved {| CleanupData.success := true;
                                         CleanupData.deletedCount := c |}) s))
            = ((requests s ++ [DeleteCleanup])
               ++ [GetLeaves (if String.eqb (status s) "all" then None
                              else Some (status s))])%list) by reflexivity.
  split; [reflexivity|]. split; [reflexivity|].
  split; [rewrite Hnotice; destruct c; reflexivity|].
  split; [unfold successShown; rewrite Hnotice; reflexivity|].
  split; [reflexivity|]. split; [reflexivity|].
  rewrite Hreq. apply last_last.
Qed.

(** X22: a timer clears whatever notice is shown when it fires.  When a
    status update and then a cleanup succeed, the notice is the one of the
    cleanup and two timers are set, of 3000 ms and of 5000 ms; when the
    first of them fires the notice of the cleanup is gone.  Firing a timer
    touches nothing but the notice. *)
Theorem X22_earlier_timer_clears_later_notice
  (c : option JsNumber.number) (p : Page) :
  let both := after [StatusChangeBack (Resolved {| StatusData.success := true |});
                     CleanupBack (Resolved {| CleanupData.success := true;
                                              CleanupData.deletedCount := c |})]
                    p in
  let fired := after [TimerFired ClearSuccess] both in
  success (state both)
  = Some ("Cleaned up " ++ countText c ++ " orphaned leave records")
  /\ timers (state both)
     = (timers (state p) ++ [(3000, ClearSuccess); (5000, ClearSuccess)])%list
  /\ success (state fired) = None
  /\ successShown (state fired) = false
  /\ leaves (state fired) = leaves (state both)
  /\ dataIssues (state fired) = dataIssues (state both)
  /\ error (state fired) = error (state both)
  /\ loading (state fired) = loading (state both)
  /\ timers (state fired) = timers (state both).
Proof.
  cbv zeta. destruct p as [s u]. destruct s.
  split; [reflexivity|].
  split; [cbn; now rewrite <- app_assoc|].
  repeat match goal with |- _ /\ _ => split; [cbn; reflexivity|] end.
  cbn. reflexivity.
Qed.

(** X23: when a status is picked in the filter and the list is fetched
    again, the request sent carries the picked status, and no status
    parameter when "all" is picked; picking a status or typing a search
    text changes neither the fetched leaves nor the warning, and a search
    text sends no request. *)
Theorem X23_filters_and_the_list_request (st q : string) (p : Page) :
  let picked := after [StatusPicked st; FetchSent] p in
  let typed := after [SearchTyped q] p in
  requests (state picked)
  = (requests (state p)
     ++ [GetLeaves (if String.eqb st "all" then None else Some st)])%list
  /\ leaves (state picked) = leaves (state p)
  /\ dataIssues (state picked) = dataIssues (state p)
  /\ search (state picked) = search (state p)
  /\ requests (state typed) = requests (state p)
  /\ leaves (state typed) = leaves (state p)
  /\ dataIssues (state typed) = dataIssues (state p)
  /\ search (state typed) = q
  /\ status (state typed) = status (state p).
Proof.
  cbv zeta. destruct p as [s u]. destruct s.
  repeat match goal with |- _ /\ _ => split; [cbn; reflexivity|] end.
  cbn. reflexivity.
Qed.

(** X24: below the filters stands the loading text exactly while
    [loading], and otherwise the text "No leave requests found" exactly
    when nothing is displayed; cards are never rendered for an empty
    sequence.  Once a list request has come back, whatever the answer, the
    loading text is gone. *)
Theorem X24_what_stands_below_the_filters
  (s : State) (r : reply LeavesData.t) :
  (listView s = LoadingText <-> loading s = true)
  /\ (listView s = NoLeavesText
      <-> loading s = false /\ filteredLeaves s = [])
  /\ (forall shownLeaves,
        listView s = Cards shownLeaves ->
        shownLeaves = filteredLeaves s /\ shownLeaves <> [])
  /\ listView (snd (fetchLeaves r s)) <> LoadingText
  /\ listView (snd (fetchLeavesResume r s)) <> LoadingText.
Proof.
  assert (Hdone : forall s', loading s' = false -> listView s' <> LoadingText).
  { intros s' H. unfold listView. rewrite H.
    destruct (Nat.eqb _ _); discriminate. }
  split; [|split; [|split; [|split]]].
  - unfold listView. destruct (loading s).
    + split; reflexivity.
    + destruct (Nat.eqb _ _); split; discriminate.
  - unfold listView. destruct (loading s).
    + split; [discriminate | intros [H _]; discriminate].
    + destruct (filteredLeaves s) as [|x l]; cbn [List.length Nat.eqb].
      * split; [intros _; split; reflexivity | reflexivity].
      * split; [discriminate | intros [_ H]; discriminate].
  - intros shownLeaves. unfold listView. destruct (loading s); [discriminate|].
    destruct (filteredLeaves s) as [|x l]; cbn [List.length Nat.eqb];
      [discriminate|].
    intros [= <-]. split; [reflexivity | discriminate].
  - apply Hdone.
    destruct r as [[ok [received|]]|err]; [destruct ok| destruct ok|];
      try reflexivity.
    unfold fetchLeaves, fetchLeavesBody, apiGetLeaves, setLoading, setError,
      setDataIssues, setLeaves, send.
    run_js. cbn [LeavesData.success LeavesData.leaves].
    destruct (0 <? _); reflexivity.
  - apply Hdone.
    destruct r as [[ok [received|]]|err]; [destruct ok| destruct ok|];
      try reflexivity.
    unfold fetchLeavesResume, fetchLeavesBody, setLoading, setError,
      setDataIssues, setLeaves.
    run_js. cbn [LeavesData.success LeavesData.leaves].
    destruct (0 <? _); reflexivity.
Qed.

End LeaveListSequences.
